(** * DrawioEditorProviderBinary: the binary (PNG) custom-document adapter

    A shallow embedding of [src/DrawioEditorProviderBinary.ts]: the class
    [DrawioBinaryDocument] (dirty flag, cached XML, write-once diagram
    instance, load / save / backup) and the class
    [DrawioEditorProviderBinary] that forwards the host's lifecycle calls
    to it.

    Everything the two classes do to the outside (the [workspace.fs] file
    system, the diagram instance living in the webview, the [EventEmitter]s
    and the command dispatcher) is a [Call]; a method is a tree of calls
    ([Prog]) threaded through the document's fields ([M]).  A [Host] answers
    the calls, and [run] executes a method against a host, returning the
    method's outcome, the document afterwards, the calls made in order and
    the host's final state.

    Asynchrony is modelled at the granularity of completed promises: an
    [async] method runs to its completion or rejection without another
    callback being interleaved at an [await]. *)

From Stdlib Require Import String Ascii List Bool.
From stdpp Require Import base option list strings gmap.

Local Open Scope string_scope.
Local Open Scope list_scope.

(** ** JavaScript values the adapter looks at *)

(** [s.endsWith(suffix)] of [String.prototype]. *)
Definition endsWith (s suffix : string) : bool :=
  let n := String.length s in
  let m := String.length suffix in
  if Nat.leb m n
  then String.eqb (String.substring (n - m) m s) suffix
  else false.

(** Truthiness of a [string | undefined]: [undefined] and the empty string
    are falsy, every other string is truthy. *)
Definition truthy (v : option string) : bool :=
  match v with
  | Some (String _ _) => true
  | Some EmptyString => false
  | None => false
  end.

(** A string is there and is not the empty one. *)
Definition non_empty (v : option string) : Prop :=
  exists s, v = Some s /\ s <> EmptyString.

(** The value of a [string | undefined] once narrowed to [string]. *)
Definition narrowed (v : option string) : string :=
  match v with
  | Some s => s
  | None => EmptyString
  end.

(** Thrown values: [new Error(message)], the [TypeError] of a member access
    on [undefined], and the rejection of a promise by a collaborator. *)
Inductive Exn : Type :=
| Error (message : string)
| TypeError (message : string)
| Rejected (reason : string).

Inductive Result (A : Type) : Type :=
| Ok (a : A)
| Err (e : Exn).
Arguments Ok {A} a.
Arguments Err {A} e.

Definition is_ok {A : Type} (r : Result A) : bool :=
  match r with
  | Ok _ => true
  | Err _ => false
  end.

(** ** What the platform provides

    Types and pure functions imported from ["vscode"], ["path"],
    [Buffer] and [./DrawioInstance]; the adapter uses them but does not
    define them. *)
Class Platform : Type := {
  (** [vscode.Uri] *)
  Uri : Type;
  Uri_parse : string -> Uri;
  Uri_toString : Uri -> string;
  fsPath : Uri -> string;
  path : Uri -> string;
  (** [extname] of ["path"] *)
  extname : string -> string;
  (** [Buffer.from(content).toString("utf-8")] *)
  utf8_decode : list Byte.byte -> string;
  (** [Buffer.from(xml, "utf-8")] *)
  utf8_encode : string -> list Byte.byte;
  (** [DrawioDocumentChange] of [./DrawioInstance] and its [newXml] *)
  DrawioDocumentChange : Type;
  newXml : DrawioDocumentChange -> string;
  (** the object identity of a [CustomDrawioInstance] *)
  CustomDrawioInstance : Type;
  (** [vscode.WebviewPanel] *)
  WebviewPanel : Type
}.

(** [vscode.CancellationToken] *)
Record CancellationToken : Type := {
  isCancellationRequested : bool
}.

(** The three event streams of a diagram instance. *)
Inductive InstanceEvent : Type :=
| onInit
| onChange
| onSave.

(** The [EventEmitter]s owned by the two classes. *)
Inductive Emitter : Type :=
| onChangeEmitter
| onInstanceSaveEmitter
| onDidChangeCustomDocumentEmitter.

Section Adapter.
Context {P : Platform}.

(** [vscode.CustomDocumentBackupContext] *)
Record CustomDocumentBackupContext : Type := {
  destination : Uri
}.

(** [vscode.CustomDocumentOpenContext]; its field is [backupId]. *)
Record CustomDocumentOpenContext : Type := {
  open_backupId : option string
}.

(** What an emitter fires: nothing, a [DrawioDocumentChange], or the
    [{ document }] of a [CustomDocumentContentChangeEvent]. *)
Inductive Payload : Type :=
| no_payload
| change_payload (change : DrawioDocumentChange)
| document_payload.

(** ** Calls to collaborators *)

Inductive Call : Type :=
(** [workspace.fs] *)
| fs_readFile (u : Uri)
| fs_writeFile (u : Uri) (content : list Byte.byte)
| fs_delete (u : Uri)
(** operations of a diagram instance *)
| loadXmlLike (i : CustomDrawioInstance) (xml : string)
| loadPngWithEmbeddedXml (i : CustomDrawioInstance) (buffer : list Byte.byte)
| export (i : CustomDrawioInstance) (format : string)
| getXml (i : CustomDrawioInstance)
(** [instance.onX.sub(handler)] *)
| sub (i : CustomDrawioInstance) (ev : InstanceEvent)
(** [emitter.fire(payload)] and [emitter.event(listener)] *)
| fire (em : Emitter) (payload : Payload)
| listen (em : Emitter)
(** [commands.executeCommand(id)], not awaited *)
| executeCommand (id : string)
(** [drawioWebviewInitializer.initializeWebview(uri, panel.webview, {isReadOnly})] *)
| initializeWebview (u : Uri) (panel : WebviewPanel) (isReadOnly : bool)
(** [drawioEditorManager.createDrawioEditor(panel, instance, {kind: "drawio", document})] *)
| createDrawioEditor (panel : WebviewPanel) (i : CustomDrawioInstance).

(** What a call gives back.  Promises may reject; subscribing, firing and
    the command that nobody awaits give nothing back. *)
Definition reply (c : Call) : Type :=
  match c with
  | fs_readFile _ => Result (list Byte.byte)
  | fs_writeFile _ _ => Result unit
  | fs_delete _ => Result unit
  | loadXmlLike _ _ => Result unit
  | loadPngWithEmbeddedXml _ _ => Result unit
  | export _ _ => Result (list Byte.byte)
  | getXml _ => Result string
  | sub _ _ => unit
  | fire _ _ => unit
  | listen _ => unit
  | executeCommand _ => unit
  | initializeWebview _ _ _ => Result CustomDrawioInstance
  | createDrawioEditor _ _ => Result unit
  end.

(** A computation that makes calls and ends with a value. *)
Inductive Prog (A : Type) : Type :=
| Ret (a : A)
| Vis (c : Call) (k : reply c -> Prog A).
Arguments Ret {A} a.
Arguments Vis {A} c k.

Fixpoint pbind {A B : Type} (p : Prog A) (f : A -> Prog B) : Prog B :=
  match p with
  | Ret a => f a
  | Vis c k => Vis c (fun r => pbind (k r) f)
  end.

(** ** The document *)

Record DrawioBinaryDocument : Type := {
  uri : Uri;
  backupId : option string;
  _drawio : option CustomDrawioInstance;
  _isDirty : bool;
  currentXml : option string
}.

(** [new DrawioBinaryDocument(uri, backupId)] with the field initialisers. *)
Definition new_DrawioBinaryDocument (uri : Uri) (backupId : option string)
  : DrawioBinaryDocument :=
  {| uri := uri; backupId := backupId;
     _drawio := None; _isDirty := false; currentXml := None |}.

Definition isDirty (this : DrawioBinaryDocument) : bool := _isDirty this.

Definition set_drawio (v : option CustomDrawioInstance) (this : DrawioBinaryDocument)
  : DrawioBinaryDocument :=
  {| uri := uri this; backupId := backupId this;
     _drawio := v; _isDirty := _isDirty this; currentXml := currentXml this |}.

Definition set_isDirty (v : bool) (this : DrawioBinaryDocument)
  : DrawioBinaryDocument :=
  {| uri := uri this; backupId := backupId this;
     _drawio := _drawio this; _isDirty := v; currentXml := currentXml this |}.

Definition set_currentXml (v : option string) (this : DrawioBinaryDocument)
  : DrawioBinaryDocument :=
  {| uri := uri this; backupId := backupId this;
     _drawio := _drawio this; _isDirty := _isDirty this; currentXml := v |}.

(** ** Methods: calls threaded through [this]

    A method ends with a value or a thrown [Exn]; assignments to the
    fields made before a throw stay. *)
Definition M (A : Type) : Type :=
  DrawioBinaryDocument -> Prog (Result A * DrawioBinaryDocument).

Definition ret {A : Type} (a : A) : M A := fun this => Ret (Ok a, this).

Definition throw {A : Type} (e : Exn) : M A := fun this => Ret (Err e, this).

Definition bind {A B : Type} (m : M A) (f : A -> M B) : M B :=
  fun this =>
    pbind (m this) (fun o =>
      match fst o with
      | Ok a => f a (snd o)
      | Err e => Ret (Err e, snd o)
      end).

Definition get_this : M DrawioBinaryDocument := fun this => Ret (Ok this, this).

Definition assign (f : DrawioBinaryDocument -> DrawioBinaryDocument) : M unit :=
  fun this => Ret (Ok tt, f this).

(** How a promise settles, and the result of a call that gives nothing back. *)
Definition settled {A : Type} (r : Result A) : Result A := r.

Definition void (u : unit) : unit := u.

(** [await promise]: a rejection is thrown at the [await]. *)
Definition await (c : Call) {A : Type} (as_result : reply c -> Result A) : M A :=
  fun this => Vis c (fun r => Ret (as_result r, this)).

(** A call that gives nothing back. *)
Definition perform (c : Call) (ignore : reply c -> unit) : M unit :=
  fun this => Vis c (fun r => Ret (Ok (ignore r), this)).

(** A promise that is started and never awaited: it runs, and its rejection
    reaches nobody. *)
Definition detach {A : Type} (m : M A) : M unit :=
  fun this => pbind (m this) (fun o => Ret (Ok tt, snd o)).

(** [try { body } catch { }] *)
Definition try_catch_noop (body : Prog (Result unit)) : Prog (Result unit) :=
  pbind body (fun _ => Ret (Ok tt)).

Declare Scope method_scope.
Delimit Scope method_scope with method.
Notation "x <- c ;; k" := (bind c (fun x => k))
  (at level 100, c at next level, right associativity) : method_scope.
Notation "c ;; k" := (bind c (fun _ => k))
  (at level 100, right associativity) : method_scope.
Local Open Scope method_scope.

(** [private get drawio() { return this._drawio!; }] followed by a member
    access: on an unbound document the access throws a [TypeError]. *)
Definition drawio : M CustomDrawioInstance :=
  fun this =>
    match _drawio this with
    | Some instance => Ret (Ok instance, this)
    | None => Ret (Err (TypeError "Cannot read properties of undefined"), this)
    end.

Definition loadFromDisk : M unit :=
  assign (set_isDirty false) ;;
  this <- get_this ;;
  if endsWith (fsPath (uri this)) ".png" then
    buffer <- await (fs_readFile (uri this)) settled ;;
    instance <- drawio ;;
    await (loadPngWithEmbeddedXml instance buffer) settled
  else
    throw (Error "Invalid file extension").

Definition saveAs (target : Uri) : M unit :=
  instance <- drawio ;;
  buffer <- await (export instance (extname (path target))) settled ;;
  await (fs_writeFile target buffer) settled.

Definition save : M unit :=
  assign (set_isDirty false) ;;
  this <- get_this ;;
  saveAs (uri this).

(** [vscode.CustomDocumentBackup]: an id and a deletion capability. *)
Record CustomDocumentBackup : Type := {
  id : string;
  delete : Prog (Result unit)
}.

Definition backup (destination : Uri) : M CustomDocumentBackup :=
  instance <- drawio ;;
  xml <- await (getXml instance) settled ;;
  await (fs_writeFile destination (utf8_encode xml)) settled ;;
  ret {| id := Uri_toString destination;
         delete := try_catch_noop (Vis (fs_delete destination) Ret) |}.

Definition dispose : M unit := ret tt.

(** The three handlers that [setDrawioInstance] subscribes. *)
Definition onInit_handler : M unit :=
  this <- get_this ;;
  if truthy (currentXml this) then
    instance <- drawio ;;
    detach (await (loadXmlLike instance (narrowed (currentXml this))) settled)
  else if truthy (backupId this) then
    let backupFile := Uri_parse (narrowed (backupId this)) in
    content <- await (fs_readFile backupFile) settled ;;
    let xml := utf8_decode content in
    instance <- drawio ;;
    await (loadXmlLike instance xml) settled ;;
    assign (set_isDirty true)
  else
    detach loadFromDisk.

Definition onChange_handler (change : DrawioDocumentChange) : M unit :=
  assign (set_currentXml (Some (newXml change))) ;;
  assign (set_isDirty true) ;;
  perform (fire onChangeEmitter (change_payload change)) void.

Definition onSave_handler : M unit :=
  perform (fire onInstanceSaveEmitter no_payload) void.

Definition setDrawioInstance (instance : CustomDrawioInstance) : M unit :=
  this <- get_this ;;
  match _drawio this with
  | Some _ => throw (Error "Instance already set!")
  | None =>
      assign (set_drawio (Some instance)) ;;
      perform (sub instance onInit) void ;;
      perform (sub instance onChange) void ;;
      perform (sub instance onSave) void
  end.

(** ** The provider *)

Definition saveCustomDocument (document : DrawioBinaryDocument)
    (cancellation : CancellationToken) : Prog (Result unit * DrawioBinaryDocument) :=
  save document.

Definition saveCustomDocumentAs (document : DrawioBinaryDocument)
    (destination : Uri) (cancellation : CancellationToken)
  : Prog (Result unit * DrawioBinaryDocument) :=
  saveAs destination document.

Definition revertCustomDocument (document : DrawioBinaryDocument)
    (cancellation : CancellationToken) : Prog (Result unit * DrawioBinaryDocument) :=
  loadFromDisk document.

Definition backupCustomDocument (document : DrawioBinaryDocument)
    (context : CustomDocumentBackupContext) (cancellation : CancellationToken)
  : Prog (Result CustomDocumentBackup * DrawioBinaryDocument) :=
  backup (destination context) document.

(** The two listeners that [openCustomDocument] registers. *)
Definition onChange_listener : Prog unit :=
  Vis (fire onDidChangeCustomDocumentEmitter document_payload) Ret.

Definition onInstanceSave_listener : Prog unit :=
  Vis (executeCommand "workbench.action.files.save") Ret.

Definition openCustomDocument (uri : Uri) (openContext : CustomDocumentOpenContext)
    (token : CancellationToken) : Prog (Result DrawioBinaryDocument) :=
  let document := new_DrawioBinaryDocument uri (open_backupId openContext) in
  Vis (listen onChangeEmitter) (fun _ =>
  Vis (listen onInstanceSaveEmitter) (fun _ =>
  Ret (Ok document))).

Definition resolveCustomEditor (document : DrawioBinaryDocument)
    (webviewPanel : WebviewPanel) (token : CancellationToken)
  : Prog (Result unit * DrawioBinaryDocument) :=
  (drawioInstance <- await (initializeWebview (uri document) webviewPanel false) settled ;;
   await (createDrawioEditor webviewPanel drawioInstance) settled ;;
   setDrawioInstance drawioInstance) document.

(** ** Hosts and runs *)

(** A host answers every call and moves to its next state. *)
Record Host : Type := {
  World : Type;
  handle : forall c : Call, World -> reply c * World
}.

(** Outcome, calls made in order, final state of the host. *)
Fixpoint run (h : Host) {A : Type} (p : Prog A) (w : World h)
  : A * list Call * World h :=
  match p with
  | Ret a => (a, [], w)
  | Vis c k =>
      let rw := handle h c w in
      let res := run h (k (fst rw)) (snd rw) in
      (fst (fst res), c :: snd (fst res), snd res)
  end.

Definition outcome {A W : Type} (res : (Result A * DrawioBinaryDocument) * list Call * W)
  : Result A := fst (fst (fst res)).

Definition document_after {A W : Type}
    (res : (Result A * DrawioBinaryDocument) * list Call * W)
  : DrawioBinaryDocument := snd (fst (fst res)).

Definition calls {A W : Type} (res : A * list Call * W) : list Call := snd (fst res).

Definition world_after {A W : Type} (res : A * list Call * W) : W := snd res.

(** ** The life of a document

    What can happen to a document once it is constructed: the host's
    lifecycle calls, the document's own public methods, and the events of
    the diagram instance, which reach the handlers only once
    [setDrawioInstance] has subscribed them. *)
Inductive Op : Type :=
| op_setDrawioInstance (instance : CustomDrawioInstance)
| op_resolveCustomEditor (panel : WebviewPanel) (token : CancellationToken)
| op_onInit
| op_onChange (change : DrawioDocumentChange)
| op_onSave
| op_loadFromDisk
| op_save
| op_saveAs (target : Uri)
| op_backup (destination : Uri)
| op_dispose.

Definition when_subscribed (handler : M unit) : M unit :=
  fun this =>
    match _drawio this with
    | Some _ => handler this
    | None => Ret (Ok tt, this)
    end.

Definition step (op : Op) : M unit :=
  match op with
  | op_setDrawioInstance instance => setDrawioInstance instance
  | op_resolveCustomEditor panel token =>
      fun this => resolveCustomEditor this panel token
  | op_onInit => when_subscribed onInit_handler
  | op_onChange change => when_subscribed (onChange_handler change)
  | op_onSave => when_subscribed onSave_handler
  | op_loadFromDisk => loadFromDisk
  | op_save => save
  | op_saveAs target => saveAs target
  | op_backup destination => backup destination ;; ret tt
  | op_dispose => dispose
  end.

(** The operations run one after the other, whatever each one's outcome. *)
Fixpoint run_ops (h : Host) (ops : list Op) (this : DrawioBinaryDocument)
    (w : World h) : DrawioBinaryDocument * World h :=
  match ops with
  | [] => (this, w)
  | op :: rest =>
      let res := run h (step op this) w in
      run_ops h rest (document_after res) (world_after res)
  end.

(** The calls of a whole life, operation after operation. *)
Fixpoint life_calls (h : Host) (ops : list Op) (this : DrawioBinaryDocument)
    (w : World h) : list Call :=
  match ops with
  | [] => []
  | op :: rest =>
      let res := run h (step op this) w in
      calls res ++ life_calls h rest (document_after res) (world_after res)
  end.

(** How many handlers a run subscribes on diagram instances. *)
Fixpoint count_subs (cs : list Call) : nat :=
  match cs with
  | [] => 0
  | sub _ _ :: rest => S (count_subs rest)
  | _ :: rest => count_subs rest
  end.

(** The locations a run writes to, and the locations it deletes. *)
Fixpoint written (cs : list Call) : list Uri :=
  match cs with
  | [] => []
  | fs_writeFile u _ :: rest => u :: written rest
  | _ :: rest => written rest
  end.

Fixpoint deleted (cs : list Call) : list Uri :=
  match cs with
  | [] => []
  | fs_delete u :: rest => u :: deleted rest
  | _ :: rest => deleted rest
  end.

(** The diagram instances whose operations a run calls. *)
Fixpoint used_instances (cs : list Call) : list CustomDrawioInstance :=
  match cs with
  | [] => []
  | loadXmlLike i _ :: rest => i :: used_instances rest
  | loadPngWithEmbeddedXml i _ :: rest => i :: used_instances rest
  | export i _ :: rest => i :: used_instances rest
  | getXml i :: rest => i :: used_instances rest
  | _ :: rest => used_instances rest
  end.

(** The cached XML after the change events among [ops] have been handled,
    starting from [cached]. *)
Fixpoint cached_after (ops : list Op) (cached : option string) : option string :=
  match ops with
  | [] => cached
  | op_onChange change :: rest => cached_after rest (Some (newXml change))
  | _ :: rest => cached_after rest cached
  end.

(** A document of the provider: [openCustomDocument] has registered
    [onChange_listener] on the document's [onChange] event and
    [onInstanceSave_listener] on its [onInstanceSave] event, and an emitter
    that fires calls its listeners before [fire] returns. *)
Fixpoint with_provider_listeners {A : Type} (p : Prog A) : Prog A :=
  match p with
  | Ret a => Ret a
  | Vis c k =>
      Vis c (fun r =>
        match c with
        | fire onChangeEmitter _ =>
            pbind onChange_listener (fun _ => with_provider_listeners (k r))
        | fire onInstanceSaveEmitter _ =>
            pbind onInstanceSave_listener (fun _ => with_provider_listeners (k r))
        | _ => with_provider_listeners (k r)
        end)
  end.

End Adapter.

Arguments Ret {P A} a.
Arguments Vis {P A} c k.

(** ** A platform and a host to run the model on

    Locations are their path text, text is stored as its bytes, a diagram
    instance is numbered by the panel that shows it.  The file system is a
    finite map from locations to contents: reading or deleting a missing
    file rejects.  The single webview holds the XML last loaded into it and
    exports PNG only. *)

Fixpoint has_slash (s : string) : bool :=
  match s with
  | EmptyString => false
  | String c rest => if Ascii.eqb c "/" then true else has_slash rest
  end.

Fixpoint basename (s : string) : string :=
  match s with
  | EmptyString => EmptyString
  | String c rest =>
      if has_slash rest then basename rest
      else if Ascii.eqb c "/" then rest else s
  end.

Fixpoint from_last_dot (s : string) : string :=
  match s with
  | EmptyString => EmptyString
  | String c rest =>
      match from_last_dot rest with
      | EmptyString => if Ascii.eqb c "." then s else EmptyString
      | later => later
      end
  end.

Definition sample_extname (p : string) : string :=
  match basename p with
  | EmptyString => EmptyString
  | String _ rest => from_last_dot rest
  end.

Record SampleChange : Type := {
  sample_newXml : string
}.

#[export] Instance SamplePlatform : Platform := {|
  Uri := string;
  Uri_parse := fun s => s;
  Uri_toString := fun u => u;
  fsPath := fun u => u;
  path := fun u => u;
  extname := sample_extname;
  utf8_decode := string_of_list_byte;
  utf8_encode := list_byte_of_string;
  DrawioDocumentChange := SampleChange;
  newXml := sample_newXml;
  CustomDrawioInstance := nat;
  WebviewPanel := nat
|}.

Record SampleWorld : Type := {
  files : gmap string (list Byte.byte);
  diagram : string;
  subscriptions : list (nat * InstanceEvent)
}.

Definition with_files (f : gmap string (list Byte.byte)) (w : SampleWorld) : SampleWorld :=
  {| files := f; diagram := diagram w; subscriptions := subscriptions w |}.

Definition with_diagram (xml : string) (w : SampleWorld) : SampleWorld :=
  {| files := files w; diagram := xml; subscriptions := subscriptions w |}.

Definition with_subscription (s : nat * InstanceEvent) (w : SampleWorld) : SampleWorld :=
  {| files := files w; diagram := diagram w;
     subscriptions := subscriptions w ++ [s] |}.

Definition sample_handle (c : @Call SamplePlatform) (w : SampleWorld)
  : reply c * SampleWorld :=
  match c return reply c * SampleWorld with
  | fs_readFile u =>
      match files w !! u with
      | Some content => (Ok content, w)
      | None => (Err (Rejected "FileNotFound"), w)
      end
  | fs_writeFile u content => (Ok tt, with_files (<[u := content]> (files w)) w)
  | fs_delete u =>
      match files w !! u with
      | Some _ => (Ok tt, with_files (base.delete u (files w)) w)
      | None => (Err (Rejected "FileNotFound"), w)
      end
  | loadXmlLike _ xml => (Ok tt, with_diagram xml w)
  | loadPngWithEmbeddedXml _ buffer =>
      match buffer with
      | [] => (Err (Rejected "No embedded XML"), w)
      | _ => (Ok tt, with_diagram (string_of_list_byte buffer) w)
      end
  | export _ format =>
      if String.eqb format ".png"
      then (Ok (list_byte_of_string (diagram w)), w)
      else (Err (Rejected "Unsupported format"), w)
  | getXml _ => (Ok (diagram w), w)
  | sub i ev => (tt, with_subscription (i, ev) w)
  | fire _ _ => (tt, w)
  | listen _ => (tt, w)
  | executeCommand _ => (tt, w)
  | initializeWebview _ panel _ => (Ok panel, w)
  | createDrawioEditor _ _ => (Ok tt, w)
  end.

Definition SampleHost : @Host SamplePlatform :=
  {| World := SampleWorld; handle := sample_handle |}.

Definition sample_world (fs : list (string * string)) (xml : string) : SampleWorld :=
  {| files := list_to_map (map (fun kv => (fst kv, list_byte_of_string (snd kv))) fs);
     diagram := xml;
     subscriptions := [] |}.

(** A document as [setDrawioInstance] leaves it, with the given fields. *)
Definition sample_document (uri : string) (backupId : option string)
    (cached : option string) (dirty : bool) : @DrawioBinaryDocument SamplePlatform :=
  {| uri := uri; backupId := backupId; _drawio := Some 1;
     _isDirty := dirty; currentXml := cached |}.

(** The disk of the examples: a diagram and a backup of it. *)
Definition sample_disk : SampleWorld :=
  sample_world [("/d.png", "<disk/>"); ("/bk", "<backup/>")] "<shown/>".

Definition cached_document : @DrawioBinaryDocument SamplePlatform :=
  sample_document "/d.png" (Some "/bk") (Some "<cached/>") true.

Definition backed_up_document : @DrawioBinaryDocument SamplePlatform :=
  sample_document "/d.png" (Some "/bk") None false.

Definition plain_document : @DrawioBinaryDocument SamplePlatform :=
  sample_document "/d.png" None None true.

Definition svg_document : @DrawioBinaryDocument SamplePlatform :=
  sample_document "/d.svg" None None true.

Definition missing_document : @DrawioBinaryDocument SamplePlatform :=
  sample_document "/missing.png" None None true.

(** A document whose cached XML is the empty string, as a change event
    with an empty payload leaves it. *)
Definition empty_cached_document : @DrawioBinaryDocument SamplePlatform :=
  sample_document "/d.png" (Some "/bk") (Some EmptyString) true.

(** A document as [openCustomDocument] constructs it. *)
Definition unbound_document : @DrawioBinaryDocument SamplePlatform :=
  @new_DrawioBinaryDocument SamplePlatform "/d.png" None.

Definition edit : SampleChange := {| sample_newXml := "<edited/>" |}.

Definition empty_edit : SampleChange := {| sample_newXml := EmptyString |}.

Definition none_requested : CancellationToken :=
  {| isCancellationRequested := false |}.

Definition sample_life : list (@Op SamplePlatform) :=
  [op_onChange edit; op_save; op_setDrawioInstance 2; op_onInit;
   op_resolveCustomEditor 3 none_requested; op_backup "/bk2";
   op_loadFromDisk; op_onSave; op_saveAs "/e.png"; op_dispose].

(** A host with faults, to run the failure paths on: the webview numbered
    7 is disposed and rejects every operation, panel 0 cannot be
    initialised, no editor can be created for panel 9, and "/ro.xml" cannot
    be written.  Everything else is answered as by the sample host. *)
Definition faulty_handle (c : @Call SamplePlatform) (w : SampleWorld)
  : reply c * SampleWorld :=
  match c return reply c * SampleWorld with
  | loadXmlLike i xml =>
      if Nat.eqb i 7 then (Err (Rejected "Webview disposed"), w)
      else sample_handle (loadXmlLike i xml) w
  | getXml i =>
      if Nat.eqb i 7 then (Err (Rejected "Webview disposed"), w)
      else sample_handle (getXml i) w
  | fs_writeFile u content =>
      if String.eqb u "/ro.xml" then (Err (Rejected "NoPermissions"), w)
      else sample_handle (fs_writeFile u content) w
  | initializeWebview u panel isReadOnly =>
      if Nat.eqb panel 0 then (Err (Rejected "Panel disposed"), w)
      else sample_handle (initializeWebview u panel isReadOnly) w
  | createDrawioEditor panel i =>
      if Nat.eqb panel 9 then (Err (Rejected "Editor not created"), w)
      else sample_handle (createDrawioEditor panel i) w
  | other => sample_handle other w
  end.

Definition FaultyHost : @Host SamplePlatform :=
  {| World := SampleWorld; handle := faulty_handle |}.

(** A document whose backup is gone from the disk. *)
Definition lost_backup_document : @DrawioBinaryDocument SamplePlatform :=
  sample_document "/d.png" (Some "/gone") None false.

(** A document bound to the disposed webview. *)
Definition disposed_document : @DrawioBinaryDocument SamplePlatform :=
  {| uri := "/d.png"; backupId := Some "/bk"; _drawio := Some 7;
     _isDirty := false; currentXml := None |}.

Definition restoring : CustomDocumentOpenContext :=
  {| open_backupId := Some "/bk" |}.

Definition quiet_life : list (@Op SamplePlatform) :=
  [op_save; op_loadFromDisk; op_backup "/bk2"; op_onSave].

(** * Properties *)

Arguments endsWith : simpl never.

Section Properties.
Context {P : Platform}.
Variable h : Host.

Lemma truthy_spec (v : option string) :
  truthy v = true <-> non_empty v.
Proof.
  unfold non_empty. split.
  - destruct v as [[|a s]|]; simpl; try discriminate.
    intros _. exists (String a s). split; [reflexivity | discriminate].
  - intros (s & -> & Hs). destruct s; [contradiction | reflexivity].
Qed.

Lemma truthy_false_spec (v : option string) :
  truthy v = false <-> ~ non_empty v.
Proof.
  rewrite <- truthy_spec. destruct (truthy v); split; intros H.
  - discriminate.
  - exfalso. apply H. reflexivity.
  - discriminate.
  - reflexivity.
Qed.

(** Exposes the calls of a method. *)
Ltac expose :=
  unfold outcome, document_after, calls, world_after, isDirty;
  unfold bind, ret, throw, assign, get_this, await, perform, detach, drawio, settled, void;
  simpl.

(** Splits on what the host answers to the next call of a run. *)
Ltac answer :=
  lazymatch goal with
  | |- context [handle h ?c ?w] =>
      let r := fresh "r" in
      let w1 := fresh "w" in
      let E := fresh "E" in
      destruct (handle h c w) as [r w1] eqn:E; simpl;
      destruct r; simpl
  end.

(** ** The dirty flag after a load or a save *)

Lemma loadFromDisk_clears_dirty (w : World h) (this : DrawioBinaryDocument) :
  _isDirty (document_after (run h (loadFromDisk this) w)) = false.
Proof.
  unfold loadFromDisk; expose.
  destruct (endsWith (fsPath (uri this)) ".png"); simpl; [| reflexivity].
  answer; [| reflexivity].
  destruct (_drawio this); reflexivity.
Qed.

Ltac split_case :=
  match goal with
  | |- context [match ?x with _ => _ end] =>
      lazymatch x with
      | context [handle] => fail
      | _ => destruct x eqn:?
      end
  | |- context [if ?x then _ else _] =>
      lazymatch x with
      | context [handle] => fail
      | _ => destruct x eqn:?
      end
  end.

(** Follows a run through every answer of the host and every branch. *)
Ltac follow :=
  expose; repeat (simpl; first [reflexivity | assumption | answer | split_case]).

Lemma save_clears_dirty (w : World h) (this : DrawioBinaryDocument) :
  _isDirty (document_after (run h (save this) w)) = false.
Proof. unfold save, saveAs. follow. Qed.

(** ** Fields that a method leaves alone *)

Lemma loadFromDisk_keeps_instance (w : World h) (this : DrawioBinaryDocument) :
  _drawio (document_after (run h (loadFromDisk this) w)) = _drawio this.
Proof. unfold loadFromDisk. follow. Qed.

Lemma saveAs_keeps_document (w : World h) (target : Uri) (this : DrawioBinaryDocument) :
  document_after (run h (saveAs target this) w) = this.
Proof. unfold saveAs. follow. Qed.

Lemma save_keeps_instance (w : World h) (this : DrawioBinaryDocument) :
  _drawio (document_after (run h (save this) w)) = _drawio this.
Proof. unfold save, saveAs. follow. Qed.

Lemma backup_keeps_document (w : World h) (destination : Uri)
    (this : DrawioBinaryDocument) :
  document_after (run h (backup destination this) w) = this.
Proof. unfold backup. follow. Qed.

Lemma onInit_keeps_instance (w : World h) (this : DrawioBinaryDocument) :
  _drawio (document_after (run h (onInit_handler this) w)) = _drawio this.
Proof. unfold onInit_handler, loadFromDisk. follow. Qed.

Lemma onChange_keeps_instance (w : World h) (change : DrawioDocumentChange)
    (this : DrawioBinaryDocument) :
  _drawio (document_after (run h (onChange_handler change this) w)) = _drawio this.
Proof. unfold onChange_handler. follow. Qed.

Lemma onSave_keeps_document (w : World h) (this : DrawioBinaryDocument) :
  document_after (run h (onSave_handler this) w) = this.
Proof. unfold onSave_handler. follow. Qed.

Lemma setDrawioInstance_bound (w : World h) (instance bound : CustomDrawioInstance)
    (this : DrawioBinaryDocument) :
  _drawio this = Some bound ->
  run h (setDrawioInstance instance this) w =
    ((Err (Error "Instance already set!"), this), [], w).
Proof. intros E. unfold setDrawioInstance. expose. rewrite E. reflexivity. Qed.

Lemma setDrawioInstance_unbound (w : World h) (instance : CustomDrawioInstance)
    (this : DrawioBinaryDocument) :
  _drawio this = None ->
  let res := run h (setDrawioInstance instance this) w in
  outcome res = Ok tt
  /\ document_after res = set_drawio (Some instance) this
  /\ calls res = [sub instance onInit; sub instance onChange; sub instance onSave].
Proof.
  intros E. unfold setDrawioInstance. expose. rewrite E. simpl.
  repeat answer. split; [| split]; reflexivity.
Qed.

Lemma resolveCustomEditor_keeps_bound (w : World h) (panel : WebviewPanel)
    (token : CancellationToken) (bound : CustomDrawioInstance)
    (this : DrawioBinaryDocument) :
  _drawio this = Some bound ->
  _drawio (document_after (run h (resolveCustomEditor this panel token) w)) = Some bound.
Proof.
  intros E. unfold resolveCustomEditor, setDrawioInstance. expose.
  repeat (answer; try assumption). rewrite E. simpl. assumption.
Qed.

Lemma step_keeps_bound (w : World h) (op : Op) (bound : CustomDrawioInstance)
    (this : DrawioBinaryDocument) :
  _drawio this = Some bound ->
  _drawio (document_after (run h (step op this) w)) = Some bound.
Proof.
  intros E. destruct op; simpl.
  - rewrite (setDrawioInstance_bound w instance bound this E). exact E.
  - exact (resolveCustomEditor_keeps_bound w panel token bound this E).
  - unfold when_subscribed. rewrite E, onInit_keeps_instance. exact E.
  - unfold when_subscribed. rewrite E, onChange_keeps_instance. exact E.
  - unfold when_subscribed. rewrite E, onSave_keeps_document. exact E.
  - rewrite loadFromDisk_keeps_instance. exact E.
  - rewrite save_keeps_instance. exact E.
  - rewrite saveAs_keeps_document. exact E.
  - transitivity (_drawio (document_after (run h (backup destination0 this) w))).
    + unfold backup. follow.
    + rewrite backup_keeps_document. exact E.
  - exact E.
Qed.

Lemma run_ops_keeps_bound (ops : list Op) (w : World h)
    (bound : CustomDrawioInstance) (this : DrawioBinaryDocument) :
  _drawio this = Some bound ->
  _drawio (fst (run_ops h ops this w)) = Some bound.
Proof.
  revert this w. induction ops as [| op rest IH]; intros this w E; simpl.
  - exact E.
  - apply IH, step_keeps_bound, E.
Qed.

(** ** The init handler, branch by branch *)

Lemma onInit_cached (w : World h) (this : DrawioBinaryDocument)
    (instance : CustomDrawioInstance) (xml : string) :
  _drawio this = Some instance ->
  currentXml this = Some xml ->
  xml <> EmptyString ->
  run h (onInit_handler this) w =
    ((Ok tt, this), [loadXmlLike instance xml],
     snd (handle h (loadXmlLike instance xml) w)).
Proof.
  intros Ei Ex Hx.
  assert (T : truthy (currentXml this) = true).
  { apply truthy_spec. exists xml. split; assumption. }
  unfold onInit_handler. expose. rewrite T, Ei, Ex. simpl. reflexivity.
Qed.

Lemma onInit_backup (w : World h) (this : DrawioBinaryDocument)
    (instance : CustomDrawioInstance) (backup_id : string)
    (content : list Byte.byte) (w1 w2 : World h) :
  _drawio this = Some instance ->
  ~ non_empty (currentXml this) ->
  backupId this = Some backup_id ->
  backup_id <> EmptyString ->
  handle h (fs_readFile (Uri_parse backup_id)) w = (Ok content, w1) ->
  handle h (loadXmlLike instance (utf8_decode content)) w1 = (Ok tt, w2) ->
  run h (onInit_handler this) w =
    ((Ok tt, set_isDirty true this),
     [fs_readFile (Uri_parse backup_id); loadXmlLike instance (utf8_decode content)],
     w2).
Proof.
  intros Ei Hx Eb Hb E1 E2.
  apply truthy_false_spec in Hx.
  assert (T : truthy (backupId this) = true).
  { apply truthy_spec. exists backup_id. split; assumption. }
  unfold onInit_handler. expose. rewrite Hx, T, Eb. simpl.
  rewrite E1. simpl. rewrite Ei. simpl. rewrite E2. reflexivity.
Qed.

Lemma onInit_disk (w : World h) (this : DrawioBinaryDocument) :
  ~ non_empty (currentXml this) ->
  ~ non_empty (backupId this) ->
  run h (onInit_handler this) w =
    ((Ok tt, document_after (run h (loadFromDisk this) w)),
     calls (run h (loadFromDisk this) w),
     world_after (run h (loadFromDisk this) w)).
Proof.
  intros Hx Hb.
  apply truthy_false_spec in Hx. apply truthy_false_spec in Hb.
  unfold onInit_handler, loadFromDisk. expose. rewrite Hx, Hb. simpl.
  destruct (endsWith (fsPath (uri this)) ".png"); simpl; [| reflexivity].
  answer; [| reflexivity].
  destruct (_drawio this); simpl; [| reflexivity].
  answer; reflexivity.
Qed.

(** C1 (as amended).  On the instance's init event the document resolves
    its content in priority order: if a cached XML snapshot exists and is
    not the empty string, it is pushed into the instance with
    [loadXmlLike] and nothing else happens; otherwise, if a backup
    identifier was supplied at construction and is not the empty string,
    the backup file is read, its bytes are decoded as UTF-8, the text is
    pushed with [loadXmlLike] and the dirty flag becomes true; otherwise
    [loadFromDisk] runs (its rejection reaching nobody). *)
Theorem onInit_resolution_order (w : World h) (this : DrawioBinaryDocument)
    (instance : CustomDrawioInstance) :
  _drawio this = Some instance ->
  (forall xml : string,
     currentXml this = Some xml -> xml <> EmptyString ->
     run h (onInit_handler this) w =
       ((Ok tt, this), [loadXmlLike instance xml],
        snd (handle h (loadXmlLike instance xml) w)))
  /\ (forall (backup_id : string) (content : list Byte.byte) (w1 w2 : World h),
       ~ non_empty (currentXml this) ->
       backupId this = Some backup_id -> backup_id <> EmptyString ->
       handle h (fs_readFile (Uri_parse backup_id)) w = (Ok content, w1) ->
       handle h (loadXmlLike instance (utf8_decode content)) w1 = (Ok tt, w2) ->
       run h (onInit_handler this) w =
         ((Ok tt, set_isDirty true this),
          [fs_readFile (Uri_parse backup_id);
           loadXmlLike instance (utf8_decode content)],
          w2))
  /\ (~ non_empty (currentXml this) -> ~ non_empty (backupId this) ->
       run h (onInit_handler this) w =
         ((Ok tt, document_after (run h (loadFromDisk this) w)),
          calls (run h (loadFromDisk this) w),
          world_after (run h (loadFromDisk this) w))).
Proof.
  intros Ei. split; [| split].
  - intros xml Ex Hx. apply onInit_cached; assumption.
  - intros backup_id content w1 w2 Hx Eb Hb E1 E2.
    apply onInit_backup with (w1 := w1); assumption.
  - intros Hx Hb. apply onInit_disk; assumption.
Qed.

(** When the backup cannot be read, or the instance refuses it, the handler
    rejects and the dirty flag stays as it was. *)
Lemma onInit_backup_unreadable (w : World h) (this : DrawioBinaryDocument)
    (backup_id : string) (e : Exn) (w1 : World h) :
  ~ non_empty (currentXml this) ->
  backupId this = Some backup_id ->
  backup_id <> EmptyString ->
  handle h (fs_readFile (Uri_parse backup_id)) w = (Err e, w1) ->
  run h (onInit_handler this) w =
    ((Err e, this), [fs_readFile (Uri_parse backup_id)], w1).
Proof.
  intros Hx Eb Hb E1.
  apply truthy_false_spec in Hx.
  assert (T : truthy (backupId this) = true).
  { apply truthy_spec. exists backup_id. split; assumption. }
  unfold onInit_handler. expose. rewrite Hx, T, Eb. simpl.
  rewrite E1. reflexivity.
Qed.

(** ** The change handler *)

(** C2 (as amended).  After an instance-change event with payload
    [newXml] the document is dirty, its cached XML is [newXml] and one
    document-level change event has been fired; this holds for every
    payload, the empty string included.  When [newXml] is not the empty
    string, a later init event pushes exactly that cached XML, whatever
    the backup identifier and the location are, and reads no file. *)
Theorem onChange_caches_and_marks_dirty (w : World h)
    (change : DrawioDocumentChange) (this : DrawioBinaryDocument) :
  outcome (run h (onChange_handler change this) w) = Ok tt
  /\ isDirty (document_after (run h (onChange_handler change this) w)) = true
  /\ currentXml (document_after (run h (onChange_handler change this) w))
      = Some (newXml change)
  /\ calls (run h (onChange_handler change this) w)
      = [fire onChangeEmitter (change_payload change)]
  /\ (newXml change <> EmptyString ->
      forall (instance : CustomDrawioInstance) (w' : World h),
        _drawio this = Some instance ->
        calls (run h (onInit_handler
                        (document_after (run h (onChange_handler change this) w))) w')
        = [loadXmlLike instance (newXml change)]).
Proof.
  assert (D : document_after (run h (onChange_handler change this) w)
              = set_isDirty true (set_currentXml (Some (newXml change)) this)).
  { unfold onChange_handler. follow. }
  split; [| split; [| split; [| split]]].
  - unfold onChange_handler. expose. answer. reflexivity.
  - rewrite D. reflexivity.
  - rewrite D. reflexivity.
  - unfold onChange_handler. follow.
  - intros Hx instance w' Ei. rewrite D.
    rewrite (onInit_cached w' _ instance (newXml change)); try assumption; reflexivity.
Qed.

(** ** Loading from disk *)

Lemma loadFromDisk_not_png (w : World h) (this : DrawioBinaryDocument) :
  endsWith (fsPath (uri this)) ".png" = false ->
  run h (loadFromDisk this) w =
    ((Err (Error "Invalid file extension"), set_isDirty false this), [], w).
Proof. intros E. unfold loadFromDisk. expose. rewrite E. reflexivity. Qed.

Lemma loadFromDisk_png (w : World h) (this : DrawioBinaryDocument)
    (instance : CustomDrawioInstance) (buffer : list Byte.byte) (w1 : World h) :
  endsWith (fsPath (uri this)) ".png" = true ->
  _drawio this = Some instance ->
  handle h (fs_readFile (uri this)) w = (Ok buffer, w1) ->
  run h (loadFromDisk this) w =
    ((fst (handle h (loadPngWithEmbeddedXml instance buffer) w1),
      set_isDirty false this),
     [fs_readFile (uri this); loadPngWithEmbeddedXml instance buffer],
     snd (handle h (loadPngWithEmbeddedXml instance buffer) w1)).
Proof.
  intros E Ei E1. unfold loadFromDisk. expose. rewrite E. simpl.
  rewrite E1. simpl. rewrite Ei. reflexivity.
Qed.

(** A read that rejects leaves the instance untouched. *)
Lemma loadFromDisk_unreadable (w : World h) (this : DrawioBinaryDocument)
    (e : Exn) (w1 : World h) :
  endsWith (fsPath (uri this)) ".png" = true ->
  handle h (fs_readFile (uri this)) w = (Err e, w1) ->
  run h (loadFromDisk this) w =
    ((Err e, set_isDirty false this), [fs_readFile (uri this)], w1).
Proof.
  intros E E1. unfold loadFromDisk. expose. rewrite E. simpl.
  rewrite E1. reflexivity.
Qed.

(** C3.  [loadFromDisk] succeeds only for a document whose location ends in
    [.png]; there it reads the file's raw bytes and passes them to the
    instance's [loadPngWithEmbeddedXml]; for any other location it throws
    "Invalid file extension" without reading the file or calling the
    instance. *)
Theorem loadFromDisk_png_only (w : World h) (this : DrawioBinaryDocument) :
  (is_ok (outcome (run h (loadFromDisk this) w)) = true ->
   endsWith (fsPath (uri this)) ".png" = true)
  /\ (endsWith (fsPath (uri this)) ".png" = true ->
      forall (instance : CustomDrawioInstance) (buffer : list Byte.byte)
             (w1 : World h),
        _drawio this = Some instance ->
        handle h (fs_readFile (uri this)) w = (Ok buffer, w1) ->
        calls (run h (loadFromDisk this) w)
          = [fs_readFile (uri this); loadPngWithEmbeddedXml instance buffer]
        /\ outcome (run h (loadFromDisk this) w)
          = fst (handle h (loadPngWithEmbeddedXml instance buffer) w1))
  /\ (endsWith (fsPath (uri this)) ".png" = false ->
      outcome (run h (loadFromDisk this) w) = Err (Error "Invalid file extension")
      /\ calls (run h (loadFromDisk this) w) = []
      /\ world_after (run h (loadFromDisk this) w) = w).
Proof.
  split; [| split].
  - destruct (endsWith (fsPath (uri this)) ".png") eqn:E; [reflexivity |].
    rewrite (loadFromDisk_not_png w this E). simpl. intros H. exact H.
  - intros E instance buffer w1 Ei E1.
    rewrite (loadFromDisk_png w this instance buffer w1 E Ei E1).
    split; reflexivity.
  - intros E. rewrite (loadFromDisk_not_png w this E).
    split; [| split]; reflexivity.
Qed.

(** The first call of [save] already sees the flag cleared: an export that
    rejects leaves a clean document and nothing written. *)
Lemma save_export_rejected (w : World h) (this : DrawioBinaryDocument)
    (instance : CustomDrawioInstance) (e : Exn) (w1 : World h) :
  _drawio this = Some instance ->
  handle h (export instance (extname (path (uri this)))) w = (Err e, w1) ->
  run h (save this) w =
    ((Err e, set_isDirty false this),
     [export instance (extname (path (uri this)))], w1).
Proof.
  intros Ei E1. unfold save, saveAs. expose. rewrite Ei. simpl.
  rewrite E1. reflexivity.
Qed.

(** C4.  [save] and [loadFromDisk] clear the dirty flag before their
    input or output is awaited: when the very first call (the export, the
    read) rejects, the flag is already false, and in every execution that
    ends in a rejection the document is left with [isDirty = false]; in
    particular [loadFromDisk] on a location that does not end in [.png]
    throws and leaves [isDirty = false]. *)
Theorem dirty_cleared_when_io_fails (w : World h) (this : DrawioBinaryDocument) :
  (forall e : Exn,
     outcome (run h (save this) w) = Err e ->
     isDirty (document_after (run h (save this) w)) = false)
  /\ (forall e : Exn,
       outcome (run h (loadFromDisk this) w) = Err e ->
       isDirty (document_after (run h (loadFromDisk this) w)) = false)
  /\ (forall (instance : CustomDrawioInstance) (e : Exn) (w1 : World h),
       _drawio this = Some instance ->
       handle h (export instance (extname (path (uri this)))) w = (Err e, w1) ->
       run h (save this) w =
         ((Err e, set_isDirty false this),
          [export instance (extname (path (uri this)))], w1))
  /\ (forall (e : Exn) (w1 : World h),
       endsWith (fsPath (uri this)) ".png" = true ->
       handle h (fs_readFile (uri this)) w = (Err e, w1) ->
       run h (loadFromDisk this) w =
         ((Err e, set_isDirty false this), [fs_readFile (uri this)], w1))
  /\ (endsWith (fsPath (uri this)) ".png" = false ->
       outcome (run h (loadFromDisk this) w) = Err (Error "Invalid file extension")
       /\ isDirty (document_after (run h (loadFromDisk this) w)) = false).
Proof.
  split; [| split; [| split; [| split]]].
  - intros e _. apply save_clears_dirty.
  - intros e _. apply loadFromDisk_clears_dirty.
  - intros instance e w1 Ei E1. apply save_export_rejected; assumption.
  - intros e w1 E E1. apply loadFromDisk_unreadable; assumption.
  - intros E. rewrite (loadFromDisk_not_png w this E). split; reflexivity.
Qed.

(** ** The write-once instance reference *)

(** C5.  [setDrawioInstance] succeeds exactly when no instance is bound;
    on a document that already has one it throws "Instance already set!"
    without changing the document, subscribing anything or touching the
    host; and once an instance is bound, no sequence of operations
    replaces or clears it. *)
Theorem drawio_write_once (w : World h) (this : DrawioBinaryDocument)
    (instance : CustomDrawioInstance) :
  (is_ok (outcome (run h (setDrawioInstance instance this) w)) = true
   <-> _drawio this = None)
  /\ (_drawio this = None ->
      _drawio (document_after (run h (setDrawioInstance instance this) w))
        = Some instance
      /\ calls (run h (setDrawioInstance instance this) w)
        = [sub instance onInit; sub instance onChange; sub instance onSave])
  /\ (forall bound : CustomDrawioInstance,
       _drawio this = Some bound ->
       run h (setDrawioInstance instance this) w
         = ((Err (Error "Instance already set!"), this), [], w))
  /\ (forall (bound : CustomDrawioInstance) (ops : list Op),
       _drawio this = Some bound ->
       _drawio (fst (run_ops h ops this w)) = Some bound).
Proof.
  split; [| split; [| split]].
  - destruct (_drawio this) as [bound |] eqn:E.
    + rewrite (setDrawioInstance_bound w instance bound this E). simpl.
      split; discriminate.
    + destruct (setDrawioInstance_unbound w instance this E) as (Ho & _).
      rewrite Ho. simpl. split; reflexivity.
  - intros E.
    destruct (setDrawioInstance_unbound w instance this E) as (_ & Hd & Hc).
    rewrite Hd, Hc. split; reflexivity.
  - intros bound E. apply setDrawioInstance_bound with (bound := bound). exact E.
  - intros bound ops E. apply run_ops_keeps_bound. exact E.
Qed.

(** ** Backup *)

Lemma delete_never_raises (destination : Uri) (w : World h) :
  run h (try_catch_noop (Vis (fs_delete destination) Ret)) w =
    (Ok tt, [fs_delete destination], snd (handle h (fs_delete destination) w)).
Proof. simpl. reflexivity. Qed.

(** C6.  [backup destination] asks the instance for its XML with [getXml]
    (no export), writes that XML UTF-8 encoded to [destination], and
    returns a record whose id is the destination and whose [delete]
    deletes that same file and never raises, whatever the file system
    answers: not the first time, not the second time, not when the file
    is missing. *)
Theorem backup_writes_xml (w : World h) (this : DrawioBinaryDocument)
    (destination : Uri) (instance : CustomDrawioInstance) (xml : string)
    (w1 w2 : World h) :
  _drawio this = Some instance ->
  handle h (getXml instance) w = (Ok xml, w1) ->
  handle h (fs_writeFile destination (utf8_encode xml)) w1 = (Ok tt, w2) ->
  exists record : CustomDocumentBackup,
    run h (backup destination this) w =
      ((Ok record, this),
       [getXml instance; fs_writeFile destination (utf8_encode xml)], w2)
    /\ id record = Uri_toString destination
    /\ (forall w' : World h,
         fst (fst (run h (delete record) w')) = Ok tt
         /\ calls (run h (delete record) w') = [fs_delete destination])
    /\ (forall w' : World h,
         fst (fst (run h (delete record)
                     (world_after (run h (delete record) w')))) = Ok tt).
Proof.
  intros Ei E1 E2.
  exists {| id := Uri_toString destination;
            delete := try_catch_noop (Vis (fs_delete destination) Ret) |}.
  split; [| split; [| split]].
  - unfold backup. expose. rewrite Ei. simpl. rewrite E1. simpl.
    rewrite E2. reflexivity.
  - reflexivity.
  - intros w'. cbv [delete]. rewrite delete_never_raises. split; reflexivity.
  - intros w'. cbv [delete]. rewrite !delete_never_raises. reflexivity.
Qed.

(** ** Saving *)

Lemma saveAs_exported (w : World h) (this : DrawioBinaryDocument) (target : Uri)
    (instance : CustomDrawioInstance) (buffer : list Byte.byte) (w1 : World h) :
  _drawio this = Some instance ->
  handle h (export instance (extname (path target))) w = (Ok buffer, w1) ->
  run h (saveAs target this) w =
    ((fst (handle h (fs_writeFile target buffer) w1), this),
     [export instance (extname (path target)); fs_writeFile target buffer],
     snd (handle h (fs_writeFile target buffer) w1)).
Proof.
  intros Ei E1. unfold saveAs. expose. rewrite Ei. simpl.
  rewrite E1. reflexivity.
Qed.

(** C7.  [save] clears the dirty flag and then is [saveAs] on the
    document's own location: the instance exports in the format named by
    the extension of the document's own URI and the buffer is written to
    that URI. *)
Theorem save_is_saveAs_own_location (w : World h) (this : DrawioBinaryDocument) :
  run h (save this) w = run h (saveAs (uri this) (set_isDirty false this)) w
  /\ isDirty (document_after (run h (save this) w)) = false
  /\ (forall (instance : CustomDrawioInstance) (buffer : list Byte.byte)
             (w1 : World h),
        _drawio this = Some instance ->
        handle h (export instance (extname (path (uri this)))) w = (Ok buffer, w1) ->
        calls (run h (save this) w)
          = [export instance (extname (path (uri this)));
             fs_writeFile (uri this) buffer]
        /\ outcome (run h (save this) w)
          = fst (handle h (fs_writeFile (uri this) buffer) w1)).
Proof.
  assert (S : run h (save this) w
              = run h (saveAs (uri this) (set_isDirty false this)) w)
    by reflexivity.
  split; [exact S | split].
  - apply save_clears_dirty.
  - intros instance buffer w1 Ei E1. rewrite S.
    rewrite (saveAs_exported w (set_isDirty false this) (uri this)
               instance buffer w1 Ei E1).
    split; reflexivity.
Qed.

(** C8.  [saveAs target] exports in the format named by the extension of
    [target]'s path, writes the buffer to [target], and leaves every field
    of the document as it was: dirty flag, cached XML, instance, uri and
    backup identifier. *)
Theorem saveAs_frame (w : World h) (this : DrawioBinaryDocument) (target : Uri) :
  document_after (run h (saveAs target this) w) = this
  /\ (forall (instance : CustomDrawioInstance) (buffer : list Byte.byte)
             (w1 : World h),
        _drawio this = Some instance ->
        handle h (export instance (extname (path target))) w = (Ok buffer, w1) ->
        calls (run h (saveAs target this) w)
          = [export instance (extname (path target)); fs_writeFile target buffer]
        /\ outcome (run h (saveAs target this) w)
          = fst (handle h (fs_writeFile target buffer) w1)).
Proof.
  split.
  - apply saveAs_keeps_document.
  - intros instance buffer w1 Ei E1.
    rewrite (saveAs_exported w this target instance buffer w1 Ei E1).
    split; reflexivity.
Qed.

(** ** The provider *)

(** C9.  Each lifecycle operation of the provider is the corresponding
    operation of the document, whatever cancellation token it is given. *)
Theorem provider_forwards (document : DrawioBinaryDocument) (target : Uri)
    (context : CustomDocumentBackupContext) (token token' : CancellationToken) :
  saveCustomDocument document token = save document
  /\ saveCustomDocumentAs document target token = saveAs target document
  /\ revertCustomDocument document token = loadFromDisk document
  /\ backupCustomDocument document context token
     = backup (destination context) document
  /\ saveCustomDocument document token = saveCustomDocument document token'
  /\ saveCustomDocumentAs document target token
     = saveCustomDocumentAs document target token'
  /\ revertCustomDocument document token = revertCustomDocument document token'
  /\ backupCustomDocument document context token
     = backupCustomDocument document context token'.
Proof. repeat split. Qed.

(** C10.  A freshly constructed document is clean, has no cached XML and
    no instance, and carries the constructor's arguments; [isDirty] always
    reads the internal flag. *)
Theorem fresh_document (u : Uri) (b : option string) :
  isDirty (new_DrawioBinaryDocument u b) = false
  /\ currentXml (new_DrawioBinaryDocument u b) = None
  /\ _drawio (new_DrawioBinaryDocument u b) = None
  /\ uri (new_DrawioBinaryDocument u b) = u
  /\ backupId (new_DrawioBinaryDocument u b) = b
  /\ (forall this : DrawioBinaryDocument, isDirty this = _isDirty this).
Proof. repeat split. Qed.

(** The provider opens a document with the context's backup identifier. *)
Lemma openCustomDocument_fresh (w : World h) (u : Uri)
    (openContext : CustomDocumentOpenContext) (token : CancellationToken) :
  fst (fst (run h (openCustomDocument u openContext token) w))
    = Ok (new_DrawioBinaryDocument u (open_backupId openContext)).
Proof. reflexivity. Qed.

(** * Further properties *)

(** ** The extension test *)

Lemma substring_whole (s : string) :
  String.substring 0 (String.length s) s = s.
Proof. induction s as [| c s IH]; simpl; [reflexivity | rewrite IH; reflexivity]. Qed.

Lemma substring_after_prefix (p s : string) :
  String.substring (String.length p) (String.length s) (String.append p s) = s.
Proof.
  induction p as [| c p IH]; simpl.
  - apply substring_whole.
  - exact IH.
Qed.

Lemma length_append (p s : string) :
  String.length (String.append p s) = String.length p + String.length s.
Proof. induction p as [| c p IH]; simpl; [reflexivity | rewrite IH; reflexivity]. Qed.

Lemma substring_split (s : string) (k : nat) :
  k <= String.length s ->
  s = String.append (String.substring 0 k s)
        (String.substring k (String.length s - k) s).
Proof.
  revert k. induction s as [| c s IH]; intros [| k] Hk; simpl in *.
  - reflexivity.
  - lia.
  - rewrite substring_whole. reflexivity.
  - change (String c s
            = String c (String.append (String.substring 0 k s)
                          (String.substring k (String.length s - k) s))).
    f_equal. apply IH. lia.
Qed.

(** [endsWith] holds exactly of the strings that are some prefix followed
    by the suffix. *)
Lemma endsWith_spec (s suffix : string) :
  endsWith s suffix = true <-> exists prefix, s = String.append prefix suffix.
Proof.
  unfold endsWith. split.
  - destruct (Nat.leb (String.length suffix) (String.length s)) eqn:L;
      [| discriminate].
    apply Nat.leb_le in L. intros E. apply String.eqb_eq in E.
    exists (String.substring 0 (String.length s - String.length suffix) s).
    pose proof (substring_split s (String.length s - String.length suffix)) as H.
    replace (String.length s - (String.length s - String.length suffix))
      with (String.length suffix) in H by lia.
    rewrite E in H. apply H. lia.
  - intros (prefix & ->). rewrite length_append.
    replace (Nat.leb (String.length suffix)
               (String.length prefix + String.length suffix)) with true
      by (symmetry; apply Nat.leb_le; lia).
    replace (String.length prefix + String.length suffix - String.length suffix)
      with (String.length prefix) by lia.
    rewrite substring_after_prefix. apply String.eqb_refl.
Qed.

(** X1.  [loadFromDisk] makes no call at all exactly when the document's
    [fsPath] is not some text followed by [.png]; when it is, the first
    thing [loadFromDisk] does is read the document's own location. *)
Theorem loadFromDisk_reads_iff_png_suffix (w : World h)
    (this : DrawioBinaryDocument) :
  (calls (run h (loadFromDisk this) w) = []
   <-> ~ exists prefix, fsPath (uri this) = String.append prefix ".png")
  /\ ((exists prefix, fsPath (uri this) = String.append prefix ".png") ->
      exists rest,
        calls (run h (loadFromDisk this) w) = fs_readFile (uri this) :: rest).
Proof.
  rewrite <- endsWith_spec.
  destruct (endsWith (fsPath (uri this)) ".png") eqn:E.
  - assert (R : exists rest,
               calls (run h (loadFromDisk this) w) = fs_readFile (uri this) :: rest).
    { unfold loadFromDisk. expose. rewrite E. simpl. eexists. reflexivity. }
    split.
    + destruct R as (rest & ->). split; [discriminate |].
      intros H. exfalso. apply H. reflexivity.
    + intros _. exact R.
  - rewrite (loadFromDisk_not_png w this E). split.
    + split; [intros _; discriminate | reflexivity].
    + discriminate.
Qed.

(** ** Methods called before an instance is bound *)

(** X2.  On a document without an instance, [saveAs], [save] and [backup]
    throw a [TypeError] before any call is made: nothing is exported and
    nothing is written.  [save] has cleared the dirty flag all the same. *)
Theorem unbound_document_writes_nothing (w : World h)
    (this : DrawioBinaryDocument) (target : Uri) :
  _drawio this = None ->
  (exists message,
     run h (saveAs target this) w = ((Err (TypeError message), this), [], w))
  /\ (exists message,
       run h (save this) w
         = ((Err (TypeError message), set_isDirty false this), [], w))
  /\ (exists message,
       run h (backup target this) w = ((Err (TypeError message), this), [], w)).
Proof.
  intros E. split; [| split]; eexists.
  - unfold saveAs. expose. rewrite E. reflexivity.
  - unfold save, saveAs. expose. rewrite E. reflexivity.
  - unfold backup. expose. rewrite E. reflexivity.
Qed.

(** X3.  On a document without an instance whose location ends in [.png],
    [loadFromDisk] reads the file and only then throws a [TypeError]: the
    flag is cleared, the file is read, no instance is called. *)
Theorem unbound_loadFromDisk_reads_then_throws (w : World h)
    (this : DrawioBinaryDocument) (buffer : list Byte.byte) (w1 : World h) :
  _drawio this = None ->
  endsWith (fsPath (uri this)) ".png" = true ->
  handle h (fs_readFile (uri this)) w = (Ok buffer, w1) ->
  exists message,
    run h (loadFromDisk this) w
      = ((Err (TypeError message), set_isDirty false this),
         [fs_readFile (uri this)], w1).
Proof.
  intros Ei E E1. eexists. unfold loadFromDisk. expose. rewrite E. simpl.
  rewrite E1. simpl. rewrite Ei. reflexivity.
Qed.

(** ** Rejections of the init handler *)

Lemma onInit_backup_refused (w : World h) (this : DrawioBinaryDocument)
    (instance : CustomDrawioInstance) (backup_id : string)
    (content : list Byte.byte) (e : Exn) (w1 w2 : World h) :
  _drawio this = Some instance ->
  ~ non_empty (currentXml this) ->
  backupId this = Some backup_id ->
  backup_id <> EmptyString ->
  handle h (fs_readFile (Uri_parse backup_id)) w = (Ok content, w1) ->
  handle h (loadXmlLike instance (utf8_decode content)) w1 = (Err e, w2) ->
  run h (onInit_handler this) w =
    ((Err e, this),
     [fs_readFile (Uri_parse backup_id); loadXmlLike instance (utf8_decode content)],
     w2).
Proof.
  intros Ei Hx Eb Hb E1 E2.
  apply truthy_false_spec in Hx.
  assert (T : truthy (backupId this) = true).
  { apply truthy_spec. exists backup_id. split; assumption. }
  unfold onInit_handler. expose. rewrite Hx, T, Eb. simpl.
  rewrite E1. simpl. rewrite Ei. simpl. rewrite E2. reflexivity.
Qed.

(** X4.  With an instance bound, the init handler can reject only while
    restoring a backup: whenever it rejects, there is no usable cached XML
    and a non-empty backup identifier was supplied. *)
Theorem onInit_rejects_only_for_backup (w : World h)
    (this : DrawioBinaryDocument) (instance : CustomDrawioInstance) (e : Exn) :
  _drawio this = Some instance ->
  outcome (run h (onInit_handler this) w) = Err e ->
  ~ non_empty (currentXml this) /\ non_empty (backupId this).
Proof.
  intros Ei.
  destruct (truthy (currentXml this)) eqn:Tx.
  - apply truthy_spec in Tx. destruct Tx as (xml & Ex & Hx).
    rewrite (onInit_cached w this instance xml Ei Ex Hx). discriminate.
  - apply truthy_false_spec in Tx.
    destruct (truthy (backupId this)) eqn:Tb.
    + apply truthy_spec in Tb. intros _. split; assumption.
    + apply truthy_false_spec in Tb.
      rewrite (onInit_disk w this Tx Tb). discriminate.
Qed.

(** X5.  With neither a usable cached XML nor a usable backup identifier,
    the init event on a location that does not end in [.png] resolves:
    the "Invalid file extension" error of the load it started reaches
    nobody, no call is made, and the document is left clean. *)
Theorem onInit_invalid_extension_unreported (w : World h)
    (this : DrawioBinaryDocument) :
  ~ non_empty (currentXml this) ->
  ~ non_empty (backupId this) ->
  endsWith (fsPath (uri this)) ".png" = false ->
  run h (onInit_handler this) w = ((Ok tt, set_isDirty false this), [], w).
Proof.
  intros Hx Hb E. rewrite (onInit_disk w this Hx Hb).
  rewrite (loadFromDisk_not_png w this E). reflexivity.
Qed.

(** X6.  While restoring a backup the document becomes dirty only if the
    backup was loaded: when the backup cannot be read the instance is not
    called, and when the instance refuses the text the handler rejects
    with that reason; in both cases the document is as it was. *)
Theorem onInit_backup_failure_leaves_document (w : World h)
    (this : DrawioBinaryDocument) (instance : CustomDrawioInstance)
    (backup_id : string) :
  _drawio this = Some instance ->
  ~ non_empty (currentXml this) ->
  backupId this = Some backup_id ->
  backup_id <> EmptyString ->
  (forall (e : Exn) (w1 : World h),
     handle h (fs_readFile (Uri_parse backup_id)) w = (Err e, w1) ->
     run h (onInit_handler this) w
       = ((Err e, this), [fs_readFile (Uri_parse backup_id)], w1))
  /\ (forall (content : list Byte.byte) (e : Exn) (w1 w2 : World h),
       handle h (fs_readFile (Uri_parse backup_id)) w = (Ok content, w1) ->
       handle h (loadXmlLike instance (utf8_decode content)) w1 = (Err e, w2) ->
       run h (onInit_handler this) w
         = ((Err e, this),
            [fs_readFile (Uri_parse backup_id);
             loadXmlLike instance (utf8_decode content)],
            w2)).
Proof.
  intros Ei Hx Eb Hb. split.
  - intros e w1 E1. apply onInit_backup_unreadable; assumption.
  - intros content e w1 w2 E1 E2.
    apply onInit_backup_refused with (w1 := w1); assumption.
Qed.

(** ** Resolving the editor *)

Lemma resolveCustomEditor_unbound (w : World h) (document : DrawioBinaryDocument)
    (panel : WebviewPanel) (token : CancellationToken)
    (instance : CustomDrawioInstance) (w1 w2 : World h) :
  _drawio document = None ->
  handle h (initializeWebview (uri document) panel false) w = (Ok instance, w1) ->
  handle h (createDrawioEditor panel instance) w1 = (Ok tt, w2) ->
  outcome (run h (resolveCustomEditor document panel token) w) = Ok tt
  /\ document_after (run h (resolveCustomEditor document panel token) w)
     = set_drawio (Some instance) document
  /\ calls (run h (resolveCustomEditor document panel token) w)
     = [initializeWebview (uri document) panel false;
        createDrawioEditor panel instance;
        sub instance onInit; sub instance onChange; sub instance onSave].
Proof.
  intros E E1 E2. unfold resolveCustomEditor, setDrawioInstance. expose.
  rewrite E1. simpl. rewrite E2. simpl. rewrite E. simpl.
  repeat answer. split; [| split]; reflexivity.
Qed.

(** X7.  When the webview initialises and the editor is created,
    [resolveCustomEditor] on a document without an instance binds the new
    instance and subscribes the three handlers, in this order: initialise
    the webview for the document's location in read-write mode, create the
    editor, subscribe init, change and save. *)
Theorem resolveCustomEditor_binds (w : World h) (document : DrawioBinaryDocument)
    (panel : WebviewPanel) (token : CancellationToken)
    (instance : CustomDrawioInstance) (w1 w2 : World h) :
  _drawio document = None ->
  handle h (initializeWebview (uri document) panel false) w = (Ok instance, w1) ->
  handle h (createDrawioEditor panel instance) w1 = (Ok tt, w2) ->
  outcome (run h (resolveCustomEditor document panel token) w) = Ok tt
  /\ document_after (run h (resolveCustomEditor document panel token) w)
     = set_drawio (Some instance) document
  /\ calls (run h (resolveCustomEditor document panel token) w)
     = [initializeWebview (uri document) panel false;
        createDrawioEditor panel instance;
        sub instance onInit; sub instance onChange; sub instance onSave].
Proof.
  intros E E1 E2. apply resolveCustomEditor_unbound with (w1 := w1) (w2 := w2);
    assumption.
Qed.

(** X8.  [resolveCustomEditor] binds the instance last.  If the webview
    cannot be initialised nothing else is called; if the editor cannot be
    created no handler is subscribed; and on a document that already has an
    instance the webview is initialised and the editor is created before
    "Instance already set!" is thrown.  In all three cases the document is
    as it was. *)
Theorem resolveCustomEditor_failures (w : World h)
    (document : DrawioBinaryDocument) (panel : WebviewPanel)
    (token : CancellationToken) :
  (forall (e : Exn) (w1 : World h),
     handle h (initializeWebview (uri document) panel false) w = (Err e, w1) ->
     run h (resolveCustomEditor document panel token) w
       = ((Err e, document), [initializeWebview (uri document) panel false], w1))
  /\ (forall (instance : CustomDrawioInstance) (e : Exn) (w1 w2 : World h),
       handle h (initializeWebview (uri document) panel false) w
         = (Ok instance, w1) ->
       handle h (createDrawioEditor panel instance) w1 = (Err e, w2) ->
       run h (resolveCustomEditor document panel token) w
         = ((Err e, document),
            [initializeWebview (uri document) panel false;
             createDrawioEditor panel instance],
            w2))
  /\ (forall (instance bound : CustomDrawioInstance) (w1 w2 : World h),
       _drawio document = Some bound ->
       handle h (initializeWebview (uri document) panel false) w
         = (Ok instance, w1) ->
       handle h (createDrawioEditor panel instance) w1 = (Ok tt, w2) ->
       run h (resolveCustomEditor document panel token) w
         = ((Err (Error "Instance already set!"), document),
            [initializeWebview (uri document) panel false;
             createDrawioEditor panel instance],
            w2)).
Proof.
  split; [| split].
  - intros e w1 E1. unfold resolveCustomEditor. expose. rewrite E1. reflexivity.
  - intros instance e w1 w2 E1 E2. unfold resolveCustomEditor. expose.
    rewrite E1. simpl. rewrite E2. reflexivity.
  - intros instance bound w1 w2 E E1 E2.
    unfold resolveCustomEditor, setDrawioInstance. expose.
    rewrite E1. simpl. rewrite E2. simpl. rewrite E. reflexivity.
Qed.

(** X9.  Restoring after a crash: a document opened with a non-empty
    backup identifier is clean and unbound; once its editor is resolved,
    the init event reads the backup, pushes its text into the new instance
    and leaves the document dirty, without reading the document's own
    location. *)
Theorem restore_from_backup (w w3 : World h) (u : Uri)
    (openContext : CustomDocumentOpenContext) (token : CancellationToken)
    (panel : WebviewPanel) (backup_id : string)
    (instance : CustomDrawioInstance) (content : list Byte.byte)
    (w0 w1 w2 w4 w5 : World h) :
  open_backupId openContext = Some backup_id ->
  backup_id <> EmptyString ->
  handle h (initializeWebview u panel false) w = (Ok instance, w1) ->
  handle h (createDrawioEditor panel instance) w1 = (Ok tt, w2) ->
  handle h (fs_readFile (Uri_parse backup_id)) w3 = (Ok content, w4) ->
  handle h (loadXmlLike instance (utf8_decode content)) w4 = (Ok tt, w5) ->
  exists opened : DrawioBinaryDocument,
    fst (fst (run h (openCustomDocument u openContext token) w0)) = Ok opened
    /\ isDirty opened = false
    /\ _drawio opened = None
    /\ run h (onInit_handler
                (document_after (run h (resolveCustomEditor opened panel token) w)))
         w3
       = ((Ok tt,
           set_isDirty true
             (document_after (run h (resolveCustomEditor opened panel token) w))),
          [fs_readFile (Uri_parse backup_id);
           loadXmlLike instance (utf8_decode content)],
          w5)
    /\ isDirty (document_after
                  (run h (onInit_handler
                            (document_after
                               (run h (resolveCustomEditor opened panel token) w)))
                     w3))
       = true.
Proof.
  intros Eb Hb E1 E2 E4 E5.
  exists (new_DrawioBinaryDocument u (open_backupId openContext)).
  assert (R : document_after
                (run h (resolveCustomEditor
                          (new_DrawioBinaryDocument u (open_backupId openContext))
                          panel token) w)
              = set_drawio (Some instance)
                  (new_DrawioBinaryDocument u (open_backupId openContext))).
  { apply (resolveCustomEditor_unbound w _ panel token instance w1 w2);
      [reflexivity | exact E1 | exact E2]. }
  assert (I : run h (onInit_handler
                       (set_drawio (Some instance)
                          (new_DrawioBinaryDocument u (open_backupId openContext))))
                w3
              = ((Ok tt,
                  set_isDirty true
                    (set_drawio (Some instance)
                       (new_DrawioBinaryDocument u (open_backupId openContext)))),
                 [fs_readFile (Uri_parse backup_id);
                  loadXmlLike instance (utf8_decode content)],
                 w5)).
  { apply onInit_backup with (w1 := w4); try assumption.
    - reflexivity.
    - apply truthy_false_spec. reflexivity. }
  split; [reflexivity | split; [reflexivity | split; [reflexivity |]]].
  rewrite R, I. split; reflexivity.
Qed.

(** ** What a whole life keeps *)

Ltac unfold_step :=
  unfold step, when_subscribed, resolveCustomEditor, setDrawioInstance,
    onInit_handler, onChange_handler, onSave_handler, loadFromDisk, save,
    saveAs, backup, dispose.

(** Follows a run through every answer and branch, leaving the goals. *)
Ltac walk := expose; repeat (simpl; first [answer | split_case]); simpl.

Lemma step_keeps_location (w : World h) (op : Op) (this : DrawioBinaryDocument) :
  uri (document_after (run h (step op this) w)) = uri this
  /\ backupId (document_after (run h (step op this) w)) = backupId this.
Proof. destruct op; unfold_step; walk; split; reflexivity. Qed.

(** X10.  The location and the backup identifier of a document are fixed
    at construction: no sequence of operations changes them, whatever the
    host answers. *)
Theorem location_never_changes (ops : list Op) (w : World h)
    (this : DrawioBinaryDocument) :
  uri (fst (run_ops h ops this w)) = uri this
  /\ backupId (fst (run_ops h ops this w)) = backupId this.
Proof.
  revert this w. induction ops as [| op rest IH]; intros this w; simpl.
  - split; reflexivity.
  - destruct (IH (document_after (run h (step op this) w))
                (world_after (run h (step op this) w))) as (Hu & Hb).
    destruct (step_keeps_location w op this) as (Hu' & Hb').
    rewrite Hu, Hb, Hu', Hb'. split; reflexivity.
Qed.

Lemma step_cached (w : World h) (op : Op) (bound : CustomDrawioInstance)
    (this : DrawioBinaryDocument) :
  _drawio this = Some bound ->
  currentXml (document_after (run h (step op this) w))
    = cached_after [op] (currentXml this).
Proof.
  intros E. destruct op; unfold_step; expose; rewrite ?E; walk; reflexivity.
Qed.

Lemma run_ops_cached (ops : list Op) (w : World h)
    (bound : CustomDrawioInstance) (this : DrawioBinaryDocument) :
  _drawio this = Some bound ->
  currentXml (fst (run_ops h ops this w)) = cached_after ops (currentXml this).
Proof.
  revert this w. induction ops as [| op rest IH]; intros this w E; simpl.
  - reflexivity.
  - rewrite IH by (apply step_keeps_bound; exact E).
    rewrite (step_cached w op bound this E).
    destruct op; reflexivity.
Qed.

(** X11.  Once an instance is bound, the cached XML is at every moment the
    payload of the latest change event, or what it was before if there was
    none: saving, reverting, backing up and init events never clear or
    replace it. *)
Theorem cached_xml_is_latest_change (ops : list Op) (w : World h)
    (bound : CustomDrawioInstance) (this : DrawioBinaryDocument) :
  _drawio this = Some bound ->
  currentXml (fst (run_ops h ops this w)) = cached_after ops (currentXml this).
Proof. apply run_ops_cached. Qed.

Lemma count_subs_app (cs ds : list Call) :
  count_subs (cs ++ ds) = count_subs cs + count_subs ds.
Proof.
  induction cs as [| c cs IH]; simpl; [reflexivity |].
  destruct c; simpl; rewrite IH; reflexivity.
Qed.

Lemma step_bound_subscribes_nothing (w : World h) (op : Op)
    (bound : CustomDrawioInstance) (this : DrawioBinaryDocument) :
  _drawio this = Some bound ->
  count_subs (calls (run h (step op this) w)) = 0.
Proof.
  intros E. destruct op; unfold_step; expose; rewrite ?E; walk;
    try reflexivity; congruence.
Qed.

Lemma step_unbound_subscribes (w : World h) (op : Op)
    (this : DrawioBinaryDocument) :
  _drawio this = None ->
  (count_subs (calls (run h (step op this) w)) = 0
   /\ _drawio (document_after (run h (step op this) w)) = None)
  \/ (count_subs (calls (run h (step op this) w)) = 3
      /\ exists instance,
           _drawio (document_after (run h (step op this) w)) = Some instance).
Proof.
  intros E. destruct op; unfold_step; expose; rewrite ?E; walk;
    first [ left; split; [reflexivity | first [reflexivity | assumption]]
          | right; split; [reflexivity | eexists; reflexivity]
          | congruence ].
Qed.

Lemma life_bound_subscribes_nothing (ops : list Op) (w : World h)
    (bound : CustomDrawioInstance) (this : DrawioBinaryDocument) :
  _drawio this = Some bound ->
  count_subs (life_calls h ops this w) = 0.
Proof.
  revert this w. induction ops as [| op rest IH]; intros this w E; simpl.
  - reflexivity.
  - rewrite count_subs_app, (step_bound_subscribes_nothing w op bound this E).
    apply IH. apply step_keeps_bound. exact E.
Qed.

(** X12.  In the whole life of a document the handlers are subscribed at
    most once: the calls of any sequence of operations contain either no
    subscription or exactly the three of the one successful binding, and
    none at all once an instance is bound. *)
Theorem handlers_subscribed_at_most_once (ops : list Op) (w : World h)
    (this : DrawioBinaryDocument) :
  (count_subs (life_calls h ops this w) = 0
   \/ count_subs (life_calls h ops this w) = 3)
  /\ (forall bound : CustomDrawioInstance,
        _drawio this = Some bound ->
        count_subs (life_calls h ops this w) = 0).
Proof.
  split.
  - revert this w. induction ops as [| op rest IH]; intros this w; simpl.
    + left. reflexivity.
    + rewrite count_subs_app.
      destruct (_drawio this) as [bound |] eqn:E.
      * rewrite (step_bound_subscribes_nothing w op bound this E).
        rewrite (life_bound_subscribes_nothing rest _ bound _
                   (step_keeps_bound w op bound this E)).
        left. reflexivity.
      * destruct (step_unbound_subscribes w op this E)
          as [(H0 & Hn) | (H3 & instance & Hs)].
        -- rewrite H0. simpl. apply IH.
        -- rewrite H3, (life_bound_subscribes_nothing rest _ instance _ Hs).
           right. reflexivity.
  - intros bound E. apply life_bound_subscribes_nothing with (bound := bound).
    exact E.
Qed.

Lemma cached_after_without_change (ops : list Op) (cached : option string) :
  (forall change, ~ In (op_onChange change) ops) ->
  cached_after ops cached = cached.
Proof.
  revert cached. induction ops as [| op rest IH]; intros cached H; simpl.
  - reflexivity.
  - assert (Hr : forall change, ~ In (op_onChange change) rest).
    { intros change Hc. apply (H change). right. exact Hc. }
    destruct op; try (apply IH; exact Hr).
    exfalso. apply (H change). left. reflexivity.
Qed.

(** X13.  Saving or reverting does not drop the cached XML: after any
    operations among which there is no change event, an init event still
    pushes the XML that was cached before them, and reads no file. *)
Theorem cached_xml_survives_save_and_revert (ops : list Op) (w w' : World h)
    (bound : CustomDrawioInstance) (this : DrawioBinaryDocument) (xml : string) :
  _drawio this = Some bound ->
  currentXml this = Some xml ->
  xml <> EmptyString ->
  (forall change, ~ In (op_onChange change) ops) ->
  calls (run h (onInit_handler (fst (run_ops h ops this w))) w')
    = [loadXmlLike bound xml].
Proof.
  intros E Ex Hx Hn.
  rewrite (onInit_cached w' _ bound xml).
  - reflexivity.
  - apply run_ops_keeps_bound. exact E.
  - rewrite (run_ops_cached ops w bound this E).
    rewrite cached_after_without_change by exact Hn. exact Ex.
  - exact Hx.
Qed.

(** ** What is written, deleted and called *)

Lemma written_app (cs ds : list Call) :
  written (cs ++ ds) = written cs ++ written ds.
Proof.
  induction cs as [| c cs IH]; simpl; [reflexivity |].
  destruct c; simpl; rewrite IH; reflexivity.
Qed.

Lemma deleted_app (cs ds : list Call) :
  deleted (cs ++ ds) = deleted cs ++ deleted ds.
Proof.
  induction cs as [| c cs IH]; simpl; [reflexivity |].
  destruct c; simpl; rewrite IH; reflexivity.
Qed.

Lemma used_instances_app (cs ds : list Call) :
  used_instances (cs ++ ds) = used_instances cs ++ used_instances ds.
Proof.
  induction cs as [| c cs IH]; simpl; [reflexivity |].
  destruct c; simpl; rewrite IH; reflexivity.
Qed.

Lemma step_writes (w : World h) (op : Op) (this : DrawioBinaryDocument) :
  deleted (calls (run h (step op this) w)) = []
  /\ (forall u : Uri,
        In u (written (calls (run h (step op this) w))) ->
        match op with
        | op_save => u = uri this
        | op_saveAs target => u = target
        | op_backup destination => u = destination
        | _ => False
        end).
Proof.
  destruct op; unfold_step; walk;
    (split; [reflexivity | intros u Hu; simpl in Hu; intuition congruence]).
Qed.

(** X14.  A document never deletes a file, and writes only where it was
    asked to: every location written during any sequence of operations is
    the document's own location with a [save] among the operations, or the
    target of a [saveAs], or the destination of a [backup]. *)
Theorem writes_only_where_asked (ops : list Op) (w : World h)
    (this : DrawioBinaryDocument) :
  deleted (life_calls h ops this w) = []
  /\ (forall u : Uri,
        In u (written (life_calls h ops this w)) ->
        (u = uri this /\ In op_save ops)
        \/ In (op_saveAs u) ops
        \/ In (op_backup u) ops).
Proof.
  revert this w. induction ops as [| op rest IH]; intros this w; simpl.
  - split; [reflexivity | intros u []].
  - destruct (step_writes w op this) as (Hd & Hw).
    destruct (IH (document_after (run h (step op this) w))
                (world_after (run h (step op this) w))) as (IHd & IHw).
    destruct (step_keeps_location w op this) as (Hu & _).
    split.
    + rewrite deleted_app, Hd, IHd. reflexivity.
    + intros u Hin. rewrite written_app in Hin.
      apply in_app_or in Hin. destruct Hin as [Hin | Hin].
      * specialize (Hw u Hin).
        destruct op; try contradiction; subst; auto.
      * specialize (IHw u Hin). rewrite Hu in IHw.
        destruct IHw as [(-> & Hs) | [Hs | Hs]]; auto.
Qed.

Lemma step_uses_bound (w : World h) (op : Op) (bound : CustomDrawioInstance)
    (this : DrawioBinaryDocument) :
  _drawio this = Some bound ->
  forall i : CustomDrawioInstance,
    In i (used_instances (calls (run h (step op this) w))) -> i = bound.
Proof.
  intros E. destruct op; unfold_step; expose; rewrite ?E; walk;
    intros i Hi; simpl in Hi; intuition congruence.
Qed.

(** X15.  Once an instance is bound, every [loadXmlLike],
    [loadPngWithEmbeddedXml], [export] and [getXml] of the document's whole
    life goes to that instance, also after further attempts to bind or
    resolve another one. *)
Theorem only_bound_instance_is_called (ops : list Op) (w : World h)
    (bound : CustomDrawioInstance) (this : DrawioBinaryDocument) :
  _drawio this = Some bound ->
  forall i : CustomDrawioInstance,
    In i (used_instances (life_calls h ops this w)) -> i = bound.
Proof.
  revert this w. induction ops as [| op rest IH]; intros this w E i Hi;
    simpl in Hi.
  - contradiction.
  - rewrite used_instances_app in Hi. apply in_app_or in Hi.
    destruct Hi as [Hi | Hi].
    + apply (step_uses_bound w op bound this E i Hi).
    + apply (IH _ _ (step_keeps_bound w op bound this E) i Hi).
Qed.

(** X16.  When the instance rejects, nothing is written: a rejected
    [export] ends [saveAs] and a rejected [getXml] ends [backup] before any
    file-system call; and when the backup's write rejects, [backup] rejects
    with that reason and returns no record.  The document is as it was. *)
Theorem nothing_written_when_instance_rejects (w : World h)
    (this : DrawioBinaryDocument) (target : Uri)
    (instance : CustomDrawioInstance) :
  _drawio this = Some instance ->
  (forall (e : Exn) (w1 : World h),
     handle h (export instance (extname (path target))) w = (Err e, w1) ->
     run h (saveAs target this) w
       = ((Err e, this), [export instance (extname (path target))], w1))
  /\ (forall (e : Exn) (w1 : World h),
       handle h (getXml instance) w = (Err e, w1) ->
       run h (backup target this) w = ((Err e, this), [getXml instance], w1))
  /\ (forall (xml : string) (e : Exn) (w1 w2 : World h),
       handle h (getXml instance) w = (Ok xml, w1) ->
       handle h (fs_writeFile target (utf8_encode xml)) w1 = (Err e, w2) ->
       run h (backup target this) w
         = ((Err e, this),
            [getXml instance; fs_writeFile target (utf8_encode xml)], w2)).
Proof.
  intros E. split; [| split].
  - intros e w1 E1. unfold saveAs. expose. rewrite E. simpl.
    rewrite E1. reflexivity.
  - intros e w1 E1. unfold backup. expose. rewrite E. simpl.
    rewrite E1. reflexivity.
  - intros xml e w1 w2 E1 E2. unfold backup. expose. rewrite E. simpl.
    rewrite E1. simpl. rewrite E2. reflexivity.
Qed.

(** X17.  What each operation does to the dirty flag of a bound document:
    a change event sets it; [save] and [loadFromDisk] clear it, whether
    they succeed or not; an init event leaves it with a usable cached XML,
    sets it when a backup was loaded (leaves it when that failed) and
    clears it otherwise; [saveAs], [backup], a save request, [dispose] and
    further attempts to bind or resolve leave it as it was. *)
Theorem dirty_flag_by_operation (w : World h) (op : Op)
    (bound : CustomDrawioInstance) (this : DrawioBinaryDocument) :
  _drawio this = Some bound ->
  isDirty (document_after (run h (step op this) w)) =
    match op with
    | op_onChange _ => true
    | op_save => false
    | op_loadFromDisk => false
    | op_onInit =>
        if truthy (currentXml this) then isDirty this
        else if truthy (backupId this)
             then (if is_ok (outcome (run h (step op_onInit this) w))
                   then true else isDirty this)
             else false
    | _ => isDirty this
    end.
Proof.
  intros E. destruct op; unfold_step; expose; rewrite ?E; walk;
    try reflexivity; congruence.
Qed.

(** ** The provider's listeners *)

(** X18.  For a document opened by the provider, a change event of the
    instance fires the document's change event and then the provider's
    [onDidChangeCustomDocument] with the document; a save request of the
    instance fires the document's save event and then runs the host's
    "workbench.action.files.save" command, and by itself exports nothing,
    writes nothing and leaves the document (its dirty flag too) alone. *)
Theorem provider_relays_instance_events (w : World h)
    (change : DrawioDocumentChange) (this : DrawioBinaryDocument) :
  calls (run h (with_provider_listeners (onChange_handler change this)) w)
    = [fire onChangeEmitter (change_payload change);
       fire onDidChangeCustomDocumentEmitter document_payload]
  /\ calls (run h (with_provider_listeners (onSave_handler this)) w)
     = [fire onInstanceSaveEmitter no_payload;
        executeCommand "workbench.action.files.save"]
  /\ document_after (run h (with_provider_listeners (onSave_handler this)) w)
     = this.
Proof.
  unfold onChange_handler, onSave_handler, onChange_listener,
    onInstanceSave_listener.
  split; [| split]; walk; reflexivity.
Qed.

(** X19.  For a document opened by the provider, the host is told of a
    content change only by a change event of the instance, and the host's
    save command is run only by a save request of the instance: no other
    operation (saving, reverting, backing up, init, binding) does either. *)
Theorem host_notified_only_by_instance_events (w : World h) (op : Op)
    (this : DrawioBinaryDocument) :
  (In (fire onDidChangeCustomDocumentEmitter document_payload)
      (calls (run h (with_provider_listeners (step op this)) w)) ->
   exists change, op = op_onChange change)
  /\ (forall id : string,
        In (executeCommand id)
           (calls (run h (with_provider_listeners (step op this)) w)) ->
        op = op_onSave /\ id = "workbench.action.files.save").
Proof.
  destruct op; unfold_step;
    unfold onChange_listener, onInstanceSave_listener; walk;
    (split; [intros H | intros id H]; simpl in H;
     intuition (try congruence; eauto)).
Qed.

End Properties.

(** * The properties on the sample host *)

Lemma onInit_resolution_order_witness :
  calls (run SampleHost (onInit_handler cached_document) sample_disk)
    = [loadXmlLike 1 "<cached/>"]
  /\ (calls (run SampleHost (onInit_handler backed_up_document) sample_disk)
        = [fs_readFile "/bk"; loadXmlLike 1 "<backup/>"]
      /\ isDirty (document_after
                    (run SampleHost (onInit_handler backed_up_document) sample_disk))
        = true)
  /\ calls (run SampleHost (onInit_handler plain_document) sample_disk)
      = [fs_readFile "/d.png";
         loadPngWithEmbeddedXml 1 (list_byte_of_string "<disk/>")].
Proof.
  split; [| split].
  - rewrite (proj1 (onInit_resolution_order SampleHost sample_disk
                      cached_document 1 eq_refl) "<cached/>");
      [reflexivity | reflexivity | discriminate].
  - rewrite (proj1 (proj2 (onInit_resolution_order SampleHost sample_disk
                             backed_up_document 1 eq_refl))
               "/bk" (list_byte_of_string "<backup/>") sample_disk
               (with_diagram "<backup/>" sample_disk)).
    + split; reflexivity.
    + apply truthy_false_spec. reflexivity.
    + reflexivity.
    + discriminate.
    + reflexivity.
    + reflexivity.
  - rewrite (proj2 (proj2 (onInit_resolution_order SampleHost sample_disk
                             plain_document 1 eq_refl))).
    + reflexivity.
    + apply truthy_false_spec. reflexivity.
    + apply truthy_false_spec. reflexivity.
Defined.

(** An empty cached snapshot is passed over: the backup is loaded. *)
Lemma onInit_empty_snapshot_passed_over :
  currentXml empty_cached_document = Some EmptyString
  /\ calls (run SampleHost (onInit_handler empty_cached_document) sample_disk)
      = [fs_readFile "/bk"; loadXmlLike 1 "<backup/>"]
  /\ calls (run SampleHost (onInit_handler empty_cached_document) sample_disk)
      <> [loadXmlLike 1 EmptyString].
Proof.
  split; [| split].
  - reflexivity.
  - reflexivity.
  - discriminate.
Qed.

Lemma onChange_caches_and_marks_dirty_witness :
  calls (run SampleHost
           (onInit_handler
              (document_after
                 (run SampleHost (onChange_handler edit backed_up_document) sample_disk)))
           sample_disk)
    = [loadXmlLike 1 "<edited/>"].
Proof.
  apply (proj2 (proj2 (proj2 (proj2
           (onChange_caches_and_marks_dirty SampleHost sample_disk edit
              backed_up_document))))).
  - discriminate.
  - reflexivity.
Defined.

(** After a change event whose payload is the empty string the document is
    dirty and caches the empty string, and the next init event goes to the
    backup, not to the cached XML. *)
Lemma onChange_empty_payload_not_preferred :
  newXml empty_edit = EmptyString
  /\ currentXml (document_after
                  (run SampleHost (onChange_handler empty_edit backed_up_document)
                     sample_disk))
     = Some EmptyString
  /\ calls (run SampleHost
             (onInit_handler
                (document_after
                   (run SampleHost (onChange_handler empty_edit backed_up_document)
                      sample_disk)))
             sample_disk)
     = [fs_readFile "/bk"; loadXmlLike 1 "<backup/>"]
  /\ calls (run SampleHost
             (onInit_handler
                (document_after
                   (run SampleHost (onChange_handler empty_edit backed_up_document)
                      sample_disk)))
             sample_disk)
     <> [loadXmlLike 1 (newXml empty_edit)].
Proof.
  split; [| split; [| split]].
  - reflexivity.
  - reflexivity.
  - reflexivity.
  - discriminate.
Qed.

Lemma loadFromDisk_png_only_witness :
  endsWith (fsPath (uri plain_document)) ".png" = true
  /\ (calls (run SampleHost (loadFromDisk plain_document) sample_disk)
        = [fs_readFile "/d.png";
           loadPngWithEmbeddedXml 1 (list_byte_of_string "<disk/>")]
      /\ outcome (run SampleHost (loadFromDisk plain_document) sample_disk)
        = Ok tt)
  /\ (outcome (run SampleHost (loadFromDisk svg_document) sample_disk)
        = Err (Error "Invalid file extension")
      /\ calls (run SampleHost (loadFromDisk svg_document) sample_disk) = []
      /\ world_after (run SampleHost (loadFromDisk svg_document) sample_disk)
        = sample_disk).
Proof.
  split; [| split].
  - apply (proj1 (loadFromDisk_png_only SampleHost sample_disk plain_document)).
    reflexivity.
  - apply (proj1 (proj2 (loadFromDisk_png_only SampleHost sample_disk plain_document))
             eq_refl 1 (list_byte_of_string "<disk/>") sample_disk);
      reflexivity.
  - apply (proj2 (proj2 (loadFromDisk_png_only SampleHost sample_disk svg_document))).
    reflexivity.
Defined.

Lemma dirty_cleared_when_io_fails_witness :
  (outcome (run SampleHost (save svg_document) sample_disk)
     = Err (Rejected "Unsupported format")
   /\ isDirty (document_after (run SampleHost (save svg_document) sample_disk))
     = false)
  /\ (outcome (run SampleHost (loadFromDisk missing_document) sample_disk)
        = Err (Rejected "FileNotFound")
      /\ isDirty (document_after
                    (run SampleHost (loadFromDisk missing_document) sample_disk))
        = false)
  /\ run SampleHost (save svg_document) sample_disk
     = ((Err (Rejected "Unsupported format"), set_isDirty false svg_document),
        [export 1 ".svg"], sample_disk)
  /\ run SampleHost (loadFromDisk missing_document) sample_disk
     = ((Err (Rejected "FileNotFound"), set_isDirty false missing_document),
        [fs_readFile "/missing.png"], sample_disk)
  /\ (outcome (run SampleHost (loadFromDisk svg_document) sample_disk)
        = Err (Error "Invalid file extension")
      /\ isDirty (document_after
                    (run SampleHost (loadFromDisk svg_document) sample_disk))
        = false).
Proof.
  split; [| split; [| split; [| split]]].
  - split; [reflexivity |].
    apply (proj1 (dirty_cleared_when_io_fails SampleHost sample_disk svg_document)
             (Rejected "Unsupported format")).
    reflexivity.
  - split; [reflexivity |].
    apply (proj1 (proj2 (dirty_cleared_when_io_fails SampleHost sample_disk
                           missing_document))
             (Rejected "FileNotFound")).
    reflexivity.
  - apply (proj1 (proj2 (proj2 (dirty_cleared_when_io_fails SampleHost sample_disk
                                  svg_document)))
             1 (Rejected "Unsupported format") sample_disk);
      reflexivity.
  - apply (proj1 (proj2 (proj2 (proj2 (dirty_cleared_when_io_fails SampleHost
                                         sample_disk missing_document))))
             (Rejected "FileNotFound") sample_disk);
      reflexivity.
  - apply (proj2 (proj2 (proj2 (proj2 (dirty_cleared_when_io_fails SampleHost
                                         sample_disk svg_document))))).
    reflexivity.
Defined.

Lemma drawio_write_once_witness :
  (_drawio (document_after
              (run SampleHost
                 (setDrawioInstance 1 unbound_document)
                 sample_disk))
     = Some 1
   /\ calls (run SampleHost
               (setDrawioInstance 1 unbound_document)
               sample_disk)
     = [sub 1 onInit; sub 1 onChange; sub 1 onSave])
  /\ run SampleHost (setDrawioInstance 2 plain_document) sample_disk
     = ((Err (Error "Instance already set!"), plain_document), [], sample_disk)
  /\ _drawio (fst (run_ops SampleHost sample_life plain_document sample_disk))
     = Some 1.
Proof.
  split; [| split].
  - apply (proj1 (proj2 (drawio_write_once SampleHost sample_disk
                           unbound_document 1))).
    reflexivity.
  - apply (proj1 (proj2 (proj2 (drawio_write_once SampleHost sample_disk
                                  plain_document 2))) 1).
    reflexivity.
  - apply (proj2 (proj2 (proj2 (drawio_write_once SampleHost sample_disk
                                  plain_document 2))) 1 sample_life).
    reflexivity.
Defined.

Lemma backup_writes_xml_witness :
  exists record : CustomDocumentBackup,
    run SampleHost (backup "/bk2" plain_document) sample_disk =
      ((Ok record, plain_document),
       [getXml 1; fs_writeFile "/bk2" (list_byte_of_string "<shown/>")],
       with_files (<["/bk2" := list_byte_of_string "<shown/>"]> (files sample_disk))
         sample_disk)
    /\ id record = "/bk2"
    /\ (forall w' : SampleWorld,
         fst (fst (run SampleHost (delete record) w')) = Ok tt
         /\ calls (run SampleHost (delete record) w') = [fs_delete "/bk2"])
    /\ (forall w' : SampleWorld,
         fst (fst (run SampleHost (delete record)
                     (world_after (run SampleHost (delete record) w')))) = Ok tt).
Proof.
  apply (backup_writes_xml SampleHost sample_disk plain_document "/bk2" 1
           "<shown/>" sample_disk).
  - reflexivity.
  - reflexivity.
  - reflexivity.
Defined.

Lemma save_is_saveAs_own_location_witness :
  calls (run SampleHost (save plain_document) sample_disk)
    = [export 1 ".png"; fs_writeFile "/d.png" (list_byte_of_string "<shown/>")]
  /\ outcome (run SampleHost (save plain_document) sample_disk) = Ok tt.
Proof.
  apply (proj2 (proj2 (save_is_saveAs_own_location SampleHost sample_disk
                         plain_document))
           1 (list_byte_of_string "<shown/>") sample_disk).
  - reflexivity.
  - reflexivity.
Defined.

Lemma saveAs_frame_witness :
  calls (run SampleHost (saveAs "/e.png" cached_document) sample_disk)
    = [export 1 ".png"; fs_writeFile "/e.png" (list_byte_of_string "<shown/>")]
  /\ outcome (run SampleHost (saveAs "/e.png" cached_document) sample_disk) = Ok tt.
Proof.
  apply (proj2 (saveAs_frame SampleHost sample_disk cached_document "/e.png")
           1 (list_byte_of_string "<shown/>") sample_disk).
  - reflexivity.
  - reflexivity.
Defined.

(** Deleting a backup twice on the sample disk: the second deletion finds
    no file, the file system rejects, and the capability still resolves. *)
Example delete_twice :
  let twice :=
    pbind (try_catch_noop (Vis (fs_delete "/bk") Ret)) (fun first =>
    pbind (try_catch_noop (Vis (fs_delete "/bk") Ret)) (fun second =>
    Ret (first, second))) in
  fst (fst (run SampleHost twice sample_disk)) = (Ok tt, Ok tt)
  /\ fst (sample_handle (fs_delete "/bk")
            (snd (sample_handle (fs_delete "/bk") sample_disk)))
     = Err (Rejected "FileNotFound").
Proof. split; reflexivity. Qed.

(** * The further properties on the sample hosts *)

Lemma loadFromDisk_reads_iff_png_suffix_witness :
  calls (run SampleHost (loadFromDisk svg_document) sample_disk) = []
  /\ exists rest,
       calls (run SampleHost (loadFromDisk plain_document) sample_disk)
         = fs_readFile "/d.png" :: rest.
Proof.
  split.
  - apply (proj1 (loadFromDisk_reads_iff_png_suffix SampleHost sample_disk
                    svg_document)).
    intros H. apply endsWith_spec in H. discriminate H.
  - apply (proj2 (loadFromDisk_reads_iff_png_suffix SampleHost sample_disk
                    plain_document)).
    exists "/d". reflexivity.
Defined.

Lemma unbound_document_writes_nothing_witness :
  (exists message,
     run SampleHost (saveAs "/e.png" unbound_document) sample_disk
       = ((Err (TypeError message), unbound_document), [], sample_disk))
  /\ (exists message,
       run SampleHost (save unbound_document) sample_disk
         = ((Err (TypeError message), set_isDirty false unbound_document),
            [], sample_disk))
  /\ (exists message,
       run SampleHost (backup "/e.png" unbound_document) sample_disk
         = ((Err (TypeError message), unbound_document), [], sample_disk)).
Proof.
  apply (unbound_document_writes_nothing SampleHost sample_disk
           unbound_document "/e.png").
  reflexivity.
Defined.

Lemma unbound_loadFromDisk_reads_then_throws_witness :
  exists message,
    run SampleHost (loadFromDisk unbound_document) sample_disk
      = ((Err (TypeError message), set_isDirty false unbound_document),
         [fs_readFile "/d.png"], sample_disk).
Proof.
  apply (unbound_loadFromDisk_reads_then_throws SampleHost sample_disk
           unbound_document (list_byte_of_string "<disk/>") sample_disk);
    reflexivity.
Defined.

Lemma onInit_rejects_only_for_backup_witness :
  outcome (run SampleHost (onInit_handler lost_backup_document) sample_disk)
    = Err (Rejected "FileNotFound")
  /\ ~ non_empty (currentXml lost_backup_document)
  /\ non_empty (backupId lost_backup_document).
Proof.
  split; [reflexivity |].
  apply (onInit_rejects_only_for_backup SampleHost sample_disk
           lost_backup_document 1 (Rejected "FileNotFound"));
    reflexivity.
Defined.

Lemma onInit_invalid_extension_unreported_witness :
  run SampleHost (onInit_handler svg_document) sample_disk
    = ((Ok tt, set_isDirty false svg_document), [], sample_disk).
Proof.
  apply (onInit_invalid_extension_unreported SampleHost sample_disk svg_document).
  - apply truthy_false_spec. reflexivity.
  - apply truthy_false_spec. reflexivity.
  - reflexivity.
Defined.

Lemma onInit_backup_failure_leaves_document_witness :
  run SampleHost (onInit_handler lost_backup_document) sample_disk
    = ((Err (Rejected "FileNotFound"), lost_backup_document),
       [fs_readFile "/gone"], sample_disk)
  /\ run FaultyHost (onInit_handler disposed_document) sample_disk
     = ((Err (Rejected "Webview disposed"), disposed_document),
        [fs_readFile "/bk"; loadXmlLike 7 "<backup/>"], sample_disk).
Proof.
  split.
  - apply (proj1 (onInit_backup_failure_leaves_document SampleHost sample_disk
                    lost_backup_document 1 "/gone" eq_refl
                    (proj1 (truthy_false_spec None) eq_refl) eq_refl
                    ltac:(discriminate))).
    reflexivity.
  - apply (proj2 (onInit_backup_failure_leaves_document FaultyHost sample_disk
                    disposed_document 7 "/bk" eq_refl
                    (proj1 (truthy_false_spec None) eq_refl) eq_refl
                    ltac:(discriminate))
             (list_byte_of_string "<backup/>") (Rejected "Webview disposed")
             sample_disk sample_disk);
      reflexivity.
Defined.

Lemma resolveCustomEditor_binds_witness :
  outcome (run SampleHost (resolveCustomEditor unbound_document 3 none_requested)
             sample_disk) = Ok tt
  /\ document_after
       (run SampleHost (resolveCustomEditor unbound_document 3 none_requested)
          sample_disk)
     = set_drawio (Some 3) unbound_document
  /\ calls (run SampleHost (resolveCustomEditor unbound_document 3 none_requested)
              sample_disk)
     = [initializeWebview "/d.png" 3 false; createDrawioEditor 3 3;
        sub 3 onInit; sub 3 onChange; sub 3 onSave].
Proof.
  apply (resolveCustomEditor_binds SampleHost sample_disk unbound_document 3
           none_requested 3 sample_disk sample_disk);
    reflexivity.
Defined.

Lemma resolveCustomEditor_failures_witness :
  run FaultyHost (resolveCustomEditor unbound_document 0 none_requested) sample_disk
    = ((Err (Rejected "Panel disposed"), unbound_document),
       [initializeWebview "/d.png" 0 false], sample_disk)
  /\ run FaultyHost (resolveCustomEditor unbound_document 9 none_requested)
       sample_disk
     = ((Err (Rejected "Editor not created"), unbound_document),
        [initializeWebview "/d.png" 9 false; createDrawioEditor 9 9], sample_disk)
  /\ run SampleHost (resolveCustomEditor plain_document 3 none_requested)
       sample_disk
     = ((Err (Error "Instance already set!"), plain_document),
        [initializeWebview "/d.png" 3 false; createDrawioEditor 3 3], sample_disk).
Proof.
  split; [| split].
  - apply (proj1 (resolveCustomEditor_failures FaultyHost sample_disk
                    unbound_document 0 none_requested)).
    reflexivity.
  - apply (proj1 (proj2 (resolveCustomEditor_failures FaultyHost sample_disk
                           unbound_document 9 none_requested))
             9 (Rejected "Editor not created") sample_disk);
      reflexivity.
  - apply (proj2 (proj2 (resolveCustomEditor_failures SampleHost sample_disk
                           plain_document 3 none_requested))
             3 1 sample_disk);
      reflexivity.
Defined.

Lemma restore_from_backup_witness :
  exists opened : DrawioBinaryDocument,
    fst (fst (run SampleHost (openCustomDocument "/d.png" restoring none_requested)
                sample_disk)) = Ok opened
    /\ isDirty opened = false
    /\ _drawio opened = None
    /\ run SampleHost
         (onInit_handler
            (document_after
               (run SampleHost (resolveCustomEditor opened 3 none_requested)
                  sample_disk)))
         sample_disk
       = ((Ok tt,
           set_isDirty true
             (document_after
                (run SampleHost (resolveCustomEditor opened 3 none_requested)
                   sample_disk))),
          [fs_readFile "/bk"; loadXmlLike 3 "<backup/>"],
          with_diagram "<backup/>" sample_disk)
    /\ isDirty (document_after
                  (run SampleHost
                     (onInit_handler
                        (document_after
                           (run SampleHost
                              (resolveCustomEditor opened 3 none_requested)
                              sample_disk)))
                     sample_disk))
       = true.
Proof.
  apply (restore_from_backup SampleHost sample_disk sample_disk "/d.png" restoring
           none_requested 3 "/bk" 3 (list_byte_of_string "<backup/>")
           sample_disk sample_disk sample_disk sample_disk
           (with_diagram "<backup/>" sample_disk));
    first [reflexivity | discriminate].
Defined.

Lemma cached_xml_is_latest_change_witness :
  currentXml (fst (run_ops SampleHost sample_life plain_document sample_disk))
    = Some "<edited/>".
Proof.
  apply (cached_xml_is_latest_change SampleHost sample_life sample_disk 1
           plain_document).
  reflexivity.
Defined.

Lemma handlers_subscribed_at_most_once_witness :
  count_subs (life_calls SampleHost sample_life plain_document sample_disk) = 0.
Proof.
  apply (proj2 (handlers_subscribed_at_most_once SampleHost sample_life
                  sample_disk plain_document) 1).
  reflexivity.
Defined.

Lemma cached_xml_survives_save_and_revert_witness :
  calls (run SampleHost
           (onInit_handler
              (fst (run_ops SampleHost quiet_life cached_document sample_disk)))
           sample_disk)
    = [loadXmlLike 1 "<cached/>"].
Proof.
  apply (cached_xml_survives_save_and_revert SampleHost quiet_life sample_disk
           sample_disk 1 cached_document "<cached/>").
  - reflexivity.
  - reflexivity.
  - discriminate.
  - intros change H. simpl in H. intuition discriminate.
Defined.

Lemma writes_only_where_asked_witness :
  ("/e.png" = uri plain_document /\ In op_save sample_life)
  \/ In (op_saveAs "/e.png") sample_life
  \/ In (op_backup "/e.png") sample_life.
Proof.
  apply (proj2 (writes_only_where_asked SampleHost sample_life sample_disk
                  plain_document) "/e.png").
  vm_compute. tauto.
Defined.

Lemma only_bound_instance_is_called_witness :
  Forall (fun i => i = 1)
    (used_instances (life_calls SampleHost sample_life plain_document sample_disk)).
Proof.
  apply List.Forall_forall. intros i Hi.
  apply (only_bound_instance_is_called SampleHost sample_life sample_disk 1
           plain_document eq_refl i Hi).
Defined.

Lemma nothing_written_when_instance_rejects_witness :
  run SampleHost (saveAs "/e.svg" plain_document) sample_disk
    = ((Err (Rejected "Unsupported format"), plain_document),
       [export 1 ".svg"], sample_disk)
  /\ run FaultyHost (backup "/bk2" disposed_document) sample_disk
     = ((Err (Rejected "Webview disposed"), disposed_document),
        [getXml 7], sample_disk)
  /\ run FaultyHost (backup "/ro.xml" plain_document) sample_disk
     = ((Err (Rejected "NoPermissions"), plain_document),
        [getXml 1; fs_writeFile "/ro.xml" (list_byte_of_string "<shown/>")],
        sample_disk).
Proof.
  split; [| split].
  - apply (proj1 (nothing_written_when_instance_rejects SampleHost sample_disk
                    plain_document "/e.svg" 1 eq_refl)).
    reflexivity.
  - apply (proj1 (proj2 (nothing_written_when_instance_rejects FaultyHost
                           sample_disk disposed_document "/bk2" 7 eq_refl))).
    reflexivity.
  - apply (proj2 (proj2 (nothing_written_when_instance_rejects FaultyHost
                           sample_disk plain_document "/ro.xml" 1 eq_refl))
             "<shown/>" (Rejected "NoPermissions") sample_disk sample_disk);
      reflexivity.
Defined.

Lemma dirty_flag_by_operation_witness :
  isDirty (document_after
             (run SampleHost (step (op_onChange edit) backed_up_document) sample_disk))
    = true
  /\ isDirty (document_after
                (run SampleHost (step (op_saveAs "/e.png") plain_document)
                   sample_disk))
     = isDirty plain_document
  /\ isDirty (document_after
                (run SampleHost (step op_loadFromDisk missing_document) sample_disk))
     = false.
Proof.
  split; [| split].
  - apply (dirty_flag_by_operation SampleHost sample_disk
             (@op_onChange SamplePlatform edit) 1
             backed_up_document eq_refl).
  - apply (dirty_flag_by_operation SampleHost sample_disk
             (@op_saveAs SamplePlatform "/e.png") 1
             plain_document eq_refl).
  - apply (dirty_flag_by_operation SampleHost sample_disk op_loadFromDisk 1
             missing_document eq_refl).
Defined.

Lemma host_notified_only_by_instance_events_witness :
  (exists change, @op_onChange SamplePlatform edit = op_onChange change)
  /\ (@op_onSave SamplePlatform = op_onSave
      /\ "workbench.action.files.save" = "workbench.action.files.save").
Proof.
  split.
  - apply (proj1 (host_notified_only_by_instance_events SampleHost sample_disk
                    (@op_onChange SamplePlatform edit) plain_document)).
    vm_compute. tauto.
  - apply (proj2 (host_notified_only_by_instance_events SampleHost sample_disk
                    op_onSave plain_document)
             "workbench.action.files.save").
    vm_compute. tauto.
Defined.
